(** * The pi_hole integration: setup, polling and unload

    A shallow embedding of [homeassistant/components/pi_hole/__init__.py].
    Python dictionaries are finite maps, the objects the module creates and
    shares (the [Hole] client, the [DataUpdateCoordinator]) live in a heap
    and are passed around by address, and a coroutine is a function from
    the state it runs on to an outcome (a value or a raised exception) and
    the state it leaves. *)

From stdpp Require Import gmap strings list fin_maps pretty.

Open Scope string_scope.
Set Warnings "-register-all".

(** ** Values *)

(** The values a configuration entry holds for this integration. *)
Inductive PyVal :=
| VNone
| VBool (b : bool)
| VInt (n : Z)
| VStr (s : string).

(** What [json.loads] may hand back as [api.data]. The module only asks
    whether it is a dict; numbers are kept as integers. *)
Inductive Json :=
| JNull
| JBool (b : bool)
| JNum (n : Z)
| JStr (s : string)
| JList (items : list Json)
| JDict (items : list (string * Json)).

(** [isinstance(x, dict)] *)
Definition isinstance_dict (x : Json) : bool :=
  match x with
  | JDict _ => true
  | _ => false
  end.

(** The truth value [if x:] tests. *)
Definition truthy (x : PyVal) : bool :=
  match x with
  | VNone => false
  | VBool b => b
  | VInt n => negb (n =? 0)%Z
  | VStr s => negb (String.eqb s "")
  end.

(** [str(x)], which is what a replacement field [{x}] of an f-string
    inserts. *)
Definition py_str (x : PyVal) : string :=
  match x with
  | VNone => "None"
  | VBool true => "True"
  | VBool false => "False"
  | VInt n => pretty n
  | VStr s => s
  end.

(** [datetime.timedelta], in seconds. *)
Definition timedelta := Z.

(** [homeassistant.const.Platform]; the module names four of its members. *)
Inductive Platform :=
| BINARY_SENSOR
| SENSOR
| SWITCH
| UPDATE
| OTHER_PLATFORM (name : string).

(** The constants the module imports from [.const] and
    [homeassistant.const]. Their values are not part of this file. *)
Class Constants := {
  CONF_API_KEY : string;
  CONF_HOST : string;
  CONF_LOCATION : string;
  CONF_NAME : string;
  CONF_SSL : string;
  CONF_VERIFY_SSL : string;
  CONF_STATISTICS_ONLY : string;
  DATA_KEY_API : string;
  DATA_KEY_COORDINATOR : string;
  DOMAIN : string;
  MIN_TIME_BETWEEN_UPDATES : timedelta
}.

(** ** Exceptions *)

(** What the client library (and the HTTP stack under it) can raise:
    [HoleError], carrying its [str()], or anything else of its own. *)
Inductive LibraryError :=
| HoleError (msg : string)
| OtherLibraryError (name : string).

Inductive Exn :=
| KeyError (key : string)
| ConfigEntryAuthFailed
| UpdateFailed (msg : string) (cause : LibraryError)
| Lib (e : LibraryError)
| HostError (name : string)
| InvalidReference (address : nat).

Inductive Outcome (A : Type) :=
| Returns (a : A)
| Raises (e : Exn).
Arguments Returns {A} a.
Arguments Raises {A} e.

(** ** Coroutines over a state *)

Definition Py (S A : Type) : Type := S → Outcome A * S.

Definition py_ret {S A} (a : A) : Py S A := λ s, (Returns a, s).

Definition py_bind {S A B} (f : A → Py S B) (m : Py S A) : Py S B :=
  λ s, match m s with
       | (Returns a, s') => f a s'
       | (Raises e, s') => (Raises e, s')
       end.

Global Instance Py_ret S : MRet (Py S) := @py_ret S.
Global Instance Py_bind S : MBind (Py S) := @py_bind S.

Definition raise {S A} (e : Exn) : Py S A := λ s, (Raises e, s).
Definition get_state {S} : Py S S := λ s, (Returns s, s).

(** [try: body / except ...: handler]: the handler picks the exceptions it
    catches; the others propagate. *)
Definition try_except {S A} (body : Py S A) (handler : Exn → option (Py S A))
  : Py S A :=
  λ s, match body s with
       | (Returns a, s') => (Returns a, s')
       | (Raises e, s') =>
           match handler e with
           | Some h => h s'
           | None => (Raises e, s')
           end
       end.

(** ** The client object *)

(** The [aiohttp] session the host hands out. [requests] stands for the
    state of the transport the library's answers may depend on. *)
Record Session := {
  verify_ssl : PyVal;
  requests : nat
}.

Module Hole.
Record t := mk {
  host : PyVal;
  session : Session;
  location : PyVal;
  tls : PyVal;
  api_token : PyVal;
  data : Json;
  versions : Json
}.
End Hole.

(** The client library [hole]: what a fresh client holds, and its two
    requests, each of which answers or raises and may update the client. *)
Class HoleLibrary := {
  initial_data : Json;
  initial_versions : Json;
  get_data : Hole.t → option LibraryError * Hole.t;
  get_versions : Hole.t → option LibraryError * Hole.t
}.

Definition await_library (request : Hole.t → option LibraryError * Hole.t)
  : Py Hole.t unit :=
  λ api, match request api with
         | (None, api') => (Returns tt, api')
         | (Some e, api') => (Raises (Lib e), api')
         end.

Section UpdateData.
Context `{HoleLibrary}.

(** [except HoleError as err] *)
Definition except_HoleError (e : Exn) : option (Py Hole.t unit) :=
  match e with
  | Lib (HoleError err) =>
      Some (raise (UpdateFailed ("Failed to communicate with API: " +:+ err)
                                (HoleError err)))
  | _ => None
  end.

(** The closure [async_update_data], run on the client it captured. *)
Definition async_update_data : Py Hole.t unit :=
  try_except
    (await_library get_data ;; await_library get_versions)
    except_HoleError ;;
  api ← get_state;
  if negb (isinstance_dict (Hole.data api))
  then raise ConfigEntryAuthFailed
  else mret tt.
End UpdateData.

(** ** The host's objects *)

Module ConfigEntry.
Record t := mk {
  entry_id : string;
  data : gmap string PyVal
}.
End ConfigEntry.

(** A function object. The module makes one kind: [async_update_data],
    closed over the client at [api]. *)
Inductive Closure :=
| async_update_data_of (api : nat).

Module DataUpdateCoordinator.
Record t := mk {
  name : PyVal;
  update_method : Closure;
  update_interval : timedelta
}.
End DataUpdateCoordinator.

(** What the module stores under [hass.data]: the address of a client or
    of a coordinator. *)
Inductive Obj :=
| HoleAt (address : nat)
| CoordinatorAt (address : nat).

(** The calls into the host that leave a trace. *)
Inductive HostCall :=
| async_update_entry (entry_id : string) (data : gmap string PyVal)
| async_config_entry_first_refresh (coordinator : nat)
| async_forward_entry_setups (entry_id : string) (platforms : list Platform)
| async_unload_platforms (entry_id : string) (platforms : list Platform).

(** A call as the host receives it, with [hass.data] as it is then. *)
Record Received := {
  call : HostCall;
  hass_data_then : gmap string (gmap string (gmap string Obj))
}.

(** [hass], the entry handed to the integration, and the heap.
    [hass.data] is kept in two parts, by who owns the key: [hass_data]
    holds the keys of the integrations, each a dictionary of entries, and
    [client_sessions] the keys under which the host caches the sessions
    (with their connectors) that [async_get_clientsession] hands out.
    [calls] lists the host calls made so far, oldest first. *)
Record World := {
  entry : ConfigEntry.t;
  hass_data : gmap string (gmap string (gmap string Obj));
  client_sessions : gmap string Session;
  holes : list Hole.t;
  coordinators : list DataUpdateCoordinator.t;
  calls : list Received
}.

Definition with_entry (e : ConfigEntry.t) (w : World) : World :=
  {| entry := e; hass_data := hass_data w;
     client_sessions := client_sessions w; holes := holes w;
     coordinators := coordinators w; calls := calls w |}.

Definition with_hass_data (d : gmap string (gmap string (gmap string Obj)))
    (w : World) : World :=
  {| entry := entry w; hass_data := d;
     client_sessions := client_sessions w; holes := holes w;
     coordinators := coordinators w; calls := calls w |}.

Definition with_client_sessions (c : gmap string Session) (w : World)
  : World :=
  {| entry := entry w; hass_data := hass_data w; client_sessions := c;
     holes := holes w; coordinators := coordinators w; calls := calls w |}.

Definition with_holes (h : list Hole.t) (w : World) : World :=
  {| entry := entry w; hass_data := hass_data w;
     client_sessions := client_sessions w; holes := h;
     coordinators := coordinators w; calls := calls w |}.

Definition with_coordinators (c : list DataUpdateCoordinator.t) (w : World)
  : World :=
  {| entry := entry w; hass_data := hass_data w;
     client_sessions := client_sessions w; holes := holes w;
     coordinators := c; calls := calls w |}.

Definition with_calls (l : list Received) (w : World) : World :=
  {| entry := entry w; hass_data := hass_data w;
     client_sessions := client_sessions w; holes := holes w;
     coordinators := coordinators w; calls := l |}.

(** The parts of the host this module calls and that this file does not
    define: the session factory, which is given the sessions cached in
    [hass.data] and the verify flag and answers with a session and the
    cache as it leaves it; how the coordinator reports a failed first
    refresh; and the outcomes of forwarding and unloading. *)
Class HostFramework := {
  async_get_clientsession :
    gmap string Session → PyVal → Session * gmap string Session;
  first_refresh_error : Exn → Exn;
  forward_entry_setups_outcome : World → list Platform → option Exn;
  unload_platforms_outcome : World → list Platform → bool
}.

(** ** Dictionary and heap operations *)

(** Append a host call to the trace. *)
Definition record_call (c : HostCall) : Py World unit :=
  λ w, (Returns tt,
        with_calls (calls w ++ [{| call := c; hass_data_then := hass_data w |}]) w).

(** [entry.data[key]] *)
Definition entry_data_getitem (key : string) : Py World PyVal :=
  λ w, match ConfigEntry.data (entry w) !! key with
       | Some v => (Returns v, w)
       | None => (Raises (KeyError key), w)
       end.

(** [entry.data.get(key)] *)
Definition entry_data_get (key : string) : Py World PyVal :=
  λ w, (Returns (default VNone (ConfigEntry.data (entry w) !! key)), w).

(** [key in entry.data] *)
Definition entry_data_contains (key : string) : Py World bool :=
  λ w, (Returns (bool_decide (is_Some (ConfigEntry.data (entry w) !! key))), w).

(** [entry.data.copy()] *)
Definition entry_data_copy : Py World (gmap string PyVal) :=
  λ w, (Returns (ConfigEntry.data (entry w)), w).

(** [d.pop(key)] on a local dictionary [d]: the value and what is left. *)
Definition dict_pop {V S} (key : string) (d : gmap string V)
  : Py S (V * gmap string V) :=
  match d !! key with
  | Some v => mret (v, delete key d)
  | None => raise (KeyError key)
  end.

(** The host replaces the entry's data. *)
Definition set_entry_data (entry_data : gmap string PyVal) : Py World unit :=
  λ w, (Returns tt,
        with_entry (ConfigEntry.mk (ConfigEntry.entry_id (entry w)) entry_data) w).

(** [entry.entry_id] *)
Definition entry_entry_id : Py World string :=
  λ w, (Returns (ConfigEntry.entry_id (entry w)), w).

(** [hass.config_entries.async_update_entry(entry, data=entry_data)] *)
Definition update_entry (entry_data : gmap string PyVal) : Py World unit :=
  id ← entry_entry_id;
  record_call (async_update_entry id entry_data) ;;
  set_entry_data entry_data.

(** Allocation: the new object goes to the end of the heap and its address
    is returned. *)
Definition new_hole (api : Hole.t) : Py World nat :=
  λ w, (Returns (length (holes w)), with_holes (holes w ++ [api]) w).

Definition new_coordinator (c : DataUpdateCoordinator.t) : Py World nat :=
  λ w, (Returns (length (coordinators w)),
        with_coordinators (coordinators w ++ [c]) w).

(** Run a coroutine of the client at [address] on the heap. *)
Definition on_hole {A} (address : nat) (m : Py Hole.t A) : Py World A :=
  λ w, match holes w !! address with
       | Some api =>
           let '(r, api') := m api in
           (r, with_holes (<[address := api']> (holes w)) w)
       | None => (Raises (InvalidReference address), w)
       end.

(** [hass.data.setdefault(key, {})] *)
Definition hass_data_setdefault (key : string) : Py World unit :=
  λ w, match hass_data w !! key with
       | Some _ => (Returns tt, w)
       | None => (Returns tt, with_hass_data (<[key := ∅]> (hass_data w)) w)
       end.

(** [hass.data[domain][key] = value] *)
Definition hass_data_setitem (domain key : string) (value : gmap string Obj)
  : Py World unit :=
  λ w, match hass_data w !! domain with
       | Some d =>
           (Returns tt,
            with_hass_data (<[domain := <[key := value]> d]> (hass_data w)) w)
       | None => (Raises (KeyError domain), w)
       end.

(** [hass.data[domain].pop(key)] *)
Definition hass_data_pop (domain key : string) : Py World (gmap string Obj) :=
  λ w, match hass_data w !! domain with
       | Some d =>
           match d !! key with
           | Some v =>
               (Returns v,
                with_hass_data (<[domain := delete key d]> (hass_data w)) w)
           | None => (Raises (KeyError key), w)
           end
       | None => (Raises (KeyError domain), w)
       end.

(** ** The module *)

Definition PLATFORMS : list Platform :=
  [BINARY_SENSOR; SENSOR; SWITCH; UPDATE].

Module DeviceInfo.
Record t := mk {
  identifiers : gset (string * string);
  name : string;
  manufacturer : string;
  configuration_url : string
}.
End DeviceInfo.

(** The fields [PiHoleEntity.__init__] stores; [api] and [coordinator] are
    addresses. *)
Record PiHoleEntity := {
  api : nat;
  coordinator : nat;
  _name : string;
  _server_unique_id : string
}.

Section Integration.
Context `{Constants} `{HoleLibrary} `{HostFramework}.

(** Calling a function object. *)
Definition call_closure (f : Closure) : Py World unit :=
  match f with
  | async_update_data_of api => on_hole api async_update_data
  end.

(** Modelled from the spec: [coordinator.async_config_entry_first_refresh()]
    of the host's periodic-refresh coordinator, which is not part of this
    file. It runs the update method once; a failure aborts the setup with
    the exception the host makes of it. *)
Definition first_refresh (coordinator : nat) : Py World unit :=
  record_call (async_config_entry_first_refresh coordinator) ;;
  w ← get_state;
  match coordinators w !! coordinator with
  | Some c =>
      try_except
        (call_closure (DataUpdateCoordinator.update_method c))
        (λ e, Some (raise (first_refresh_error e)))
  | None => raise (InvalidReference coordinator)
  end.

(** A fetch that ended in [ConfigEntryAuthFailed]. *)
Definition requires_reauth (r : Outcome unit) : bool :=
  match r with
  | Raises ConfigEntryAuthFailed => true
  | _ => false
  end.

(** Modelled from the spec: the timer of the host's periodic-refresh
    coordinator, which is not part of this file, while entities listen to
    it. An [update_interval] after it is armed it runs the update method.
    A fetch that returns, or that fails in another way than
    [ConfigEntryAuthFailed], is reported and the timer is armed again
    ("retry on next tick"); a fetch that raises [ConfigEntryAuthFailed]
    is reported as requiring re-authentication and the timer is not armed
    again. [ticks] bounds how long the timer is watched; the result lists
    each fetch with its time. *)
Fixpoint poll (ticks : nat) (c : DataUpdateCoordinator.t) (now : Z)
    (w : World) : list (Z * Outcome unit) * World :=
  match ticks with
  | O => ([], w)
  | S k =>
      let due := (now + DataUpdateCoordinator.update_interval c)%Z in
      let '(r, w1) := call_closure (DataUpdateCoordinator.update_method c) w in
      if requires_reauth r
      then ([(due, r)], w1)
      else
        let '(rs, w2) := poll k c due w1 in
        ((due, r) :: rs, w2)
  end.


(** [hass.config_entries.async_forward_entry_setups(entry, platforms)] *)
Definition forward_entry_setups (platforms : list Platform) : Py World unit :=
  id ← entry_entry_id;
  record_call (async_forward_entry_setups id platforms) ;;
  w ← get_state;
  match forward_entry_setups_outcome w platforms with
  | None => mret tt
  | Some e => raise e
  end.

(** [hass.config_entries.async_unload_platforms(entry, platforms)] *)
Definition unload_platforms (platforms : list Platform) : Py World bool :=
  id ← entry_entry_id;
  record_call (async_unload_platforms id platforms) ;;
  w ← get_state;
  mret (unload_platforms_outcome w platforms).

(** [async_get_clientsession(hass, verify_ssl)] *)
Definition get_clientsession (verify_ssl : PyVal) : Py World Session :=
  λ w, let '(session, cache) :=
         async_get_clientsession (client_sessions w) verify_ssl in
       (Returns session, with_client_sessions cache w).

(** [Hole(host, session, location=..., tls=..., api_token=...)] *)
Definition Hole_init (host : PyVal) (session : Session)
    (location tls api_token : PyVal) : Hole.t :=
  Hole.mk host session location tls api_token initial_data initial_versions.

(** [async_setup_entry(hass, entry)]. The debug log line has no effect on
    the state and is left out. *)
Definition async_setup_entry : Py World bool :=
  name ← entry_data_getitem CONF_NAME;
  host ← entry_data_getitem CONF_HOST;
  use_tls ← entry_data_getitem CONF_SSL;
  verify_tls ← entry_data_getitem CONF_VERIFY_SSL;
  location ← entry_data_getitem CONF_LOCATION;
  api_key ← entry_data_get CONF_API_KEY;
  has_statistics_only ← entry_data_contains CONF_STATISTICS_ONLY;
  (if has_statistics_only : bool
   then
     entry_data ← entry_data_copy;
     popped ← dict_pop CONF_STATISTICS_ONLY entry_data;
     update_entry popped.2
   else mret tt) ;;
  has_api_key ← entry_data_contains CONF_API_KEY;
  if negb has_api_key
  then raise ConfigEntryAuthFailed
  else
    session ← get_clientsession verify_tls;
    api ← new_hole (Hole_init host session location use_tls api_key);
    coordinator ← new_coordinator
      (DataUpdateCoordinator.mk name (async_update_data_of api)
                                MIN_TIME_BETWEEN_UPDATES);
    hass_data_setdefault DOMAIN ;;
    id ← entry_entry_id;
    hass_data_setitem DOMAIN id
      (<[DATA_KEY_COORDINATOR := CoordinatorAt coordinator]>
         (<[DATA_KEY_API := HoleAt api]> ∅)) ;;
    first_refresh coordinator ;;
    forward_entry_setups PLATFORMS ;;
    mret true.

(** [async_unload_entry(hass, entry)] *)
Definition async_unload_entry : Py World bool :=
  unload_ok ← unload_platforms PLATFORMS;
  (if unload_ok : bool
   then
     id ← entry_entry_id;
     hass_data_pop DOMAIN id ;;
     mret tt
   else mret tt) ;;
  mret unload_ok.

(** The property [PiHoleEntity.device_info]. *)
Definition device_info (self : PiHoleEntity) : Py World DeviceInfo.t :=
  on_hole (api self)
    (self_api ← get_state;
     let config_url :=
       if truthy (Hole.tls self_api)
       then "https://" +:+ py_str (Hole.host self_api) +:+ "/"
            +:+ py_str (Hole.location self_api)
       else "http://" +:+ py_str (Hole.host self_api) +:+ "/"
            +:+ py_str (Hole.location self_api) in
     mret (DeviceInfo.mk {[ (DOMAIN, _server_unique_id self) ]}
                         (_name self) "Pi-hole" config_url)).
End Integration.

(** ** A concrete installation

    The values Home Assistant gives the constants, a library that answers
    from a script, and a host whose calls succeed. *)

Definition ha_constants : Constants := {|
  CONF_API_KEY := "api_key";
  CONF_HOST := "host";
  CONF_LOCATION := "location";
  CONF_NAME := "name";
  CONF_SSL := "ssl";
  CONF_VERIFY_SSL := "verify_ssl";
  CONF_STATISTICS_ONLY := "statistics_only";
  DATA_KEY_API := "api";
  DATA_KEY_COORDINATOR := "coordinator";
  DOMAIN := "pi_hole";
  MIN_TIME_BETWEEN_UPDATES := 300%Z
|}.

Definition count_request (a : Hole.t) : Hole.t :=
  Hole.mk (Hole.host a)
          {| verify_ssl := verify_ssl (Hole.session a);
             requests := S (requests (Hole.session a)) |}
          (Hole.location a) (Hole.tls a) (Hole.api_token a)
          (Hole.data a) (Hole.versions a).

Definition set_data (d : Json) (a : Hole.t) : Hole.t :=
  Hole.mk (Hole.host a) (Hole.session a) (Hole.location a) (Hole.tls a)
          (Hole.api_token a) d (Hole.versions a).

Definition set_versions (v : Json) (a : Hole.t) : Hole.t :=
  Hole.mk (Hole.host a) (Hole.session a) (Hole.location a) (Hole.tls a)
          (Hole.api_token a) (Hole.data a) v.

(** A Pi-hole that answers a summary to a client with a token and an empty
    list to one without, as the appliance does for an unauthenticated
    request. *)
Definition answering_library : HoleLibrary := {|
  initial_data := JDict [];
  initial_versions := JDict [];
  get_data := λ a,
    (None,
     set_data (match Hole.api_token a with
               | VStr _ => JDict [("ads_blocked_today", JNum 12%Z)]
               | _ => JList []
               end) (count_request a));
  get_versions := λ a,
    (None, set_versions (JDict [("core_update", JBool false)]) (count_request a))
|}.

(** A Pi-hole that cannot be reached. *)
Definition unreachable_library : HoleLibrary := {|
  initial_data := JDict [];
  initial_versions := JDict [];
  get_data := λ a, (Some (HoleError "Cannot connect"), count_request a);
  get_versions := λ a, (Some (HoleError "Cannot connect"), count_request a)
|}.

(** A Pi-hole that answers the summary and then drops the connection. *)
Definition flaky_library : HoleLibrary := {|
  initial_data := JDict [];
  initial_versions := JDict [];
  get_data := λ a,
    (None, set_data (JDict [("ads_blocked_today", JNum 12%Z)]) (count_request a));
  get_versions := λ a, (Some (HoleError "Timeout"), count_request a)
|}.

(** The host's session factory: one session for the requests that verify
    certificates and one for those that do not, each made when first
    asked for and kept in the cache. *)
Definition shared_clientsession (cache : gmap string Session)
    (verify : PyVal) : Session * gmap string Session :=
  let key := if truthy verify
             then "aiohttp_clientsession"
             else "aiohttp_clientsession_notverify" in
  match cache !! key with
  | Some session => (session, cache)
  | None =>
      let session := {| verify_ssl := verify; requests := 0 |} in
      (session, <[key := session]> cache)
  end.

Definition obliging_host (unload_ok : bool) : HostFramework := {|
  async_get_clientsession := shared_clientsession;
  first_refresh_error := λ e,
    match e with
    | ConfigEntryAuthFailed => ConfigEntryAuthFailed
    | _ => HostError "ConfigEntryNotReady"
    end;
  forward_entry_setups_outcome := λ _ _, None;
  unload_platforms_outcome := λ _ _, unload_ok
|}.

Definition entry_with_key : ConfigEntry.t :=
  ConfigEntry.mk "entry-1"
    (list_to_map
       [("name", VStr "Pi-Hole"); ("host", VStr "192.168.1.2");
        ("ssl", VBool false); ("verify_ssl", VBool true);
        ("location", VStr "admin"); ("api_key", VStr "secret");
        ("statistics_only", VBool true)]).

Definition entry_without_key : ConfigEntry.t :=
  ConfigEntry.mk "entry-2"
    (list_to_map
       [("name", VStr "Pi-Hole"); ("host", VStr "192.168.1.2");
        ("ssl", VBool false); ("verify_ssl", VBool true);
        ("location", VStr "admin")]).

Definition fresh_world (e : ConfigEntry.t) : World :=
  {| entry := e; hass_data := ∅; client_sessions := ∅; holes := [];
     coordinators := []; calls := [] |}.

(** The world a successful setup of [entry_with_key] leaves. *)
Definition set_up_world (unload_ok : bool) : World :=
  (@async_setup_entry ha_constants answering_library (obliging_host unload_ok)
     (fresh_world entry_with_key)).2.

Definition sample_entity : PiHoleEntity :=
  {| api := 0; coordinator := 0; _name := "Pi-Hole";
     _server_unique_id := "entry-1" |}.

Definition sample_api (token : PyVal) : Hole.t :=
  Hole.mk (VStr "192.168.1.2") {| verify_ssl := VBool true; requests := 0 |}
          (VStr "admin") (VBool false) token (JDict []) (JDict []).

(** ** Reading the trace and describing the stages of a setup *)

(** The data of the [async_update_entry] calls in a trace. *)
Definition entry_updates (l : list Received)
  : list (string * gmap string PyVal) :=
  omap (λ r, match call r with
             | async_update_entry id d => Some (id, d)
             | _ => None
             end) l.

(** The first refreshes in a trace, each with [hass.data] as it was. *)
Definition first_refreshes (l : list Received)
  : list (nat * gmap string (gmap string (gmap string Obj))) :=
  omap (λ r, match call r with
             | async_config_entry_first_refresh c => Some (c, hass_data_then r)
             | _ => None
             end) l.

Definition forwarded_setups (l : list Received)
  : list (string * list Platform) :=
  omap (λ r, match call r with
             | async_forward_entry_setups id ps => Some (id, ps)
             | _ => None
             end) l.

Definition unloaded_platforms (l : list Received)
  : list (string * list Platform) :=
  omap (λ r, match call r with
             | async_unload_platforms id ps => Some (id, ps)
             | _ => None
             end) l.

Section Stages.
Context `{Constants} `{HoleLibrary} `{HostFramework}.

(** The keys [async_setup_entry] reads by subscript. *)
Definition has_required_keys (d : gmap string PyVal) : Prop :=
  is_Some (d !! CONF_NAME) ∧ is_Some (d !! CONF_HOST) ∧
  is_Some (d !! CONF_SSL) ∧ is_Some (d !! CONF_VERIFY_SSL) ∧
  is_Some (d !! CONF_LOCATION).

(** The world once the obsolete key has been dealt with. *)
Definition cleaned (w : World) : World :=
  let d := ConfigEntry.data (entry w) in
  let id := ConfigEntry.entry_id (entry w) in
  if bool_decide (is_Some (d !! CONF_STATISTICS_ONLY))
  then
    with_entry (ConfigEntry.mk id (delete CONF_STATISTICS_ONLY d))
      (with_calls
         (calls w ++
            [{| call := async_update_entry id (delete CONF_STATISTICS_ONLY d);
                hass_data_then := hass_data w |}]) w)
  else w.

(** The host's session cache after a setup asked for its session. *)
Definition sessions_after (w : World) : gmap string Session :=
  (async_get_clientsession (client_sessions w)
     (default VNone (ConfigEntry.data (entry w) !! CONF_VERIFY_SSL))).2.

(** The client and the coordinator a setup builds in world [w]. *)
Definition built_client (w : World) : Hole.t :=
  let d := ConfigEntry.data (entry w) in
  Hole_init (default VNone (d !! CONF_HOST))
            (async_get_clientsession (client_sessions w)
               (default VNone (d !! CONF_VERIFY_SSL))).1
            (default VNone (d !! CONF_LOCATION))
            (default VNone (d !! CONF_SSL))
            (default VNone (d !! CONF_API_KEY)).

Definition built_coordinator (w : World) : DataUpdateCoordinator.t :=
  DataUpdateCoordinator.mk
    (default VNone (ConfigEntry.data (entry w) !! CONF_NAME))
    (async_update_data_of (length (holes w)))
    MIN_TIME_BETWEEN_UPDATES.

(** What a setup stores for the entry. *)
Definition stored_objects (w : World) : gmap string Obj :=
  <[DATA_KEY_COORDINATOR := CoordinatorAt (length (coordinators w))]>
    (<[DATA_KEY_API := HoleAt (length (holes w))]> ∅).

(** The world when the first refresh is about to be awaited. *)
Definition installed (w : World) : World :=
  let w1 := cleaned w in
  {| entry := entry w1;
     hass_data :=
       <[DOMAIN := <[ConfigEntry.entry_id (entry w) := stored_objects w]>
                     (default ∅ (hass_data w !! DOMAIN))]> (hass_data w);
     client_sessions := sessions_after w;
     holes := holes w ++ [built_client w];
     coordinators := coordinators w ++ [built_coordinator w];
     calls := calls w1 |}.

(** The world after the first refresh left the client as [client]. *)
Definition refreshed (w : World) (client : Hole.t) : World :=
  with_holes (holes w ++ [client])
    (with_calls
       (calls (cleaned w) ++
          [{| call := async_config_entry_first_refresh (length (coordinators w));
              hass_data_then := hass_data (installed w) |}])
       (installed w)).

(** The world after the platforms were handed the entry. *)
Definition forwarded (w : World) (client : Hole.t) : World :=
  with_calls
    (calls (refreshed w client) ++
       [{| call := async_forward_entry_setups
                     (ConfigEntry.entry_id (entry w)) PLATFORMS;
           hass_data_then := hass_data (installed w) |}])
    (refreshed w client).

(** The world once the host has been asked to unload the platforms. *)
Definition unloading (w : World) : World :=
  with_calls
    (calls w ++
       [{| call := async_unload_platforms
                     (ConfigEntry.entry_id (entry w)) PLATFORMS;
           hass_data_then := hass_data w |}]) w.
End Stages.

(** ** Reading order, entities and further installations *)

Section Reading.
Context `{Constants}.

(** The keys [async_setup_entry] reads by subscript, in the order it reads
    them. *)
Definition required_keys : list string :=
  [CONF_NAME; CONF_HOST; CONF_SSL; CONF_VERIFY_SSL; CONF_LOCATION].

(** The first of them that [d] lacks. *)
Definition first_missing_key (d : gmap string PyVal) : option string :=
  find (λ key, negb (bool_decide (is_Some (d !! key)))) required_keys.
End Reading.

(** [PiHoleEntity.__init__(api, coordinator, name, server_unique_id)] *)
Definition PiHoleEntity_init (api coordinator : nat)
    (name server_unique_id : string) : PiHoleEntity :=
  {| api := api; coordinator := coordinator; _name := name;
     _server_unique_id := server_unique_id |}.

(** A client library whose requests leave the address of the appliance
    (host, location, TLS flag) as the client was given it. *)
Definition keeps_address `{HoleLibrary} : Prop :=
  ∀ a,
    (Hole.host (get_data a).2 = Hole.host a ∧
     Hole.location (get_data a).2 = Hole.location a ∧
     Hole.tls (get_data a).2 = Hole.tls a) ∧
    (Hole.host (get_versions a).2 = Hole.host a ∧
     Hole.location (get_versions a).2 = Hole.location a ∧
     Hole.tls (get_versions a).2 = Hole.tls a).

(** A Pi-hole that stops accepting the token after the first two
    requests of the session. *)
Definition expiring_library : HoleLibrary := {|
  initial_data := JDict [];
  initial_versions := JDict [];
  get_data := λ a,
    (None,
     set_data (if (requests (Hole.session a) <? 2)%nat
               then JDict [("ads_blocked_today", JNum 12%Z)]
               else JList []) (count_request a));
  get_versions := λ a,
    (None, set_versions (JDict [("core_update", JBool false)]) (count_request a))
|}.

(** A Pi-hole whose summary request is cancelled under way. *)
Definition cancelled_library : HoleLibrary := {|
  initial_data := JDict [];
  initial_versions := JDict [];
  get_data := λ a, (Some (OtherLibraryError "CancelledError"), count_request a);
  get_versions := λ a,
    (None, set_versions (JDict [("core_update", JBool false)]) (count_request a))
|}.

(** A host on which no platform can be set up. *)
Definition refusing_host : HostFramework := {|
  async_get_clientsession := shared_clientsession;
  first_refresh_error := λ e,
    match e with
    | ConfigEntryAuthFailed => ConfigEntryAuthFailed
    | _ => HostError "ConfigEntryNotReady"
    end;
  forward_entry_setups_outcome := λ _ _, Some (HostError "PlatformNotReady");
  unload_platforms_outcome := λ _ _, true
|}.

Definition entry_missing_keys : ConfigEntry.t :=
  ConfigEntry.mk "entry-3"
    (list_to_map
       [("name", VStr "Pi-Hole"); ("host", VStr "192.168.1.2");
        ("verify_ssl", VBool true); ("api_key", VStr "secret");
        ("statistics_only", VBool true)]).

Definition entry_obsolete_without_key : ConfigEntry.t :=
  ConfigEntry.mk "entry-4"
    (list_to_map
       [("name", VStr "Pi-Hole"); ("host", VStr "pi.hole");
        ("ssl", VBool true); ("verify_ssl", VBool true);
        ("location", VStr "admin"); ("statistics_only", VBool false)]).


(** ** Proof steps *)

(** Unfold the sequencing of coroutines. *)
Ltac unfold_py :=
  unfold mbind, mret, Py_bind, Py_ret, py_bind, py_ret, raise, get_state;
  cbv beta.

(** Settle a closed statement about the concrete installation by running
    the code. *)
Ltac evaluate :=
  repeat split; try (eexists; vm_compute; reflexivity); vm_compute; reflexivity.

(** ** The update method *)

Section UpdateDataProperties.
Context `{HoleLibrary}.

(** The three ways the two requests can go. *)
Lemma async_update_data_get_data_raises api e api1 :
  get_data api = (Some e, api1) →
  async_update_data api =
    match e with
    | HoleError err =>
        (Raises (UpdateFailed ("Failed to communicate with API: " +:+ err)
                              (HoleError err)), api1)
    | _ => (Raises (Lib e), api1)
    end.
Proof.
  intros Hd. unfold async_update_data, mbind, Py_bind, py_bind, try_except,
    await_library. rewrite Hd. by destruct e.
Qed.

Lemma async_update_data_get_versions_raises api api1 e api2 :
  get_data api = (None, api1) →
  get_versions api1 = (Some e, api2) →
  async_update_data api =
    match e with
    | HoleError err =>
        (Raises (UpdateFailed ("Failed to communicate with API: " +:+ err)
                              (HoleError err)), api2)
    | _ => (Raises (Lib e), api2)
    end.
Proof.
  intros Hd Hv. unfold async_update_data, mbind, Py_bind, py_bind,
    try_except, await_library. rewrite Hd, Hv. by destruct e.
Qed.

Lemma async_update_data_fetched api api1 api2 :
  get_data api = (None, api1) →
  get_versions api1 = (None, api2) →
  async_update_data api =
    if isinstance_dict (Hole.data api2)
    then (Returns tt, api2)
    else (Raises ConfigEntryAuthFailed, api2).
Proof.
  intros Hd Hv. unfold async_update_data, mbind, Py_bind, py_bind,
    try_except, await_library. rewrite Hd, Hv. simpl.
  by destruct (isinstance_dict (Hole.data api2)).
Qed.

(** C1. When [api.get_data()] raises [HoleError], or it returns and
    [api.get_versions()] raises [HoleError], [async_update_data] raises
    [UpdateFailed] with the message built from the error and the error
    as its cause, and it does not raise [ConfigEntryAuthFailed]. *)
Theorem async_update_data_HoleError_is_UpdateFailed api err :
  (get_data api).1 = Some (HoleError err) ∨
  ((get_data api).1 = None ∧
   (get_versions (get_data api).2).1 = Some (HoleError err)) →
  (async_update_data api).1 =
    Raises (UpdateFailed ("Failed to communicate with API: " +:+ err)
                         (HoleError err)) ∧
  (async_update_data api).1 ≠ Raises ConfigEntryAuthFailed.
Proof.
  intros Hraise.
  assert ((async_update_data api).1 =
          Raises (UpdateFailed ("Failed to communicate with API: " +:+ err)
                               (HoleError err))) as Hout.
  { destruct Hraise as [Hd | [Hd Hv]].
    - destruct (get_data api) as [r api1] eqn:Ed. simpl in Hd. subst r.
      by rewrite (async_update_data_get_data_raises _ _ _ Ed).
    - destruct (get_data api) as [r api1] eqn:Ed. simpl in Hd, Hv. subst r.
      destruct (get_versions api1) as [r api2] eqn:Ev. simpl in Hv. subst r.
      by rewrite (async_update_data_get_versions_raises _ _ _ _ Ed Ev). }
  split; [exact Hout | by rewrite Hout].
Qed.

(** C2. [async_update_data] raises [ConfigEntryAuthFailed] exactly when
    both requests return and [api.data] is then not a dict; when both
    return and [api.data] is a dict it returns. *)
Theorem async_update_data_auth_failed_iff api :
  ((async_update_data api).1 = Raises ConfigEntryAuthFailed ↔
   ∃ api1 api2,
     get_data api = (None, api1) ∧ get_versions api1 = (None, api2) ∧
     isinstance_dict (Hole.data api2) = false) ∧
  (∀ api1 api2,
     get_data api = (None, api1) → get_versions api1 = (None, api2) →
     isinstance_dict (Hole.data api2) = true →
     async_update_data api = (Returns tt, api2)).
Proof.
  split.
  - split.
    + intros Hout.
      destruct (get_data api) as [[e|] api1] eqn:Ed.
      { rewrite (async_update_data_get_data_raises _ _ _ Ed) in Hout.
        by destruct e. }
      destruct (get_versions api1) as [[e|] api2] eqn:Ev.
      { rewrite (async_update_data_get_versions_raises _ _ _ _ Ed Ev) in Hout.
        by destruct e. }
      rewrite (async_update_data_fetched _ _ _ Ed Ev) in Hout.
      exists api1, api2. split; [done |]. split; [done |].
      by destruct (isinstance_dict (Hole.data api2)).
    + intros (api1 & api2 & Hd & Hv & Hnot).
      by rewrite (async_update_data_fetched _ _ _ Hd Hv), Hnot.
  - intros api1 api2 Hd Hv Hdict.
    by rewrite (async_update_data_fetched _ _ _ Hd Hv), Hdict.
Qed.
End UpdateDataProperties.

Lemma async_update_data_HoleError_is_UpdateFailed_witness :
  (@async_update_data unreachable_library (sample_api VNone)).1 =
    Raises (UpdateFailed "Failed to communicate with API: Cannot connect"
                         (HoleError "Cannot connect")) ∧
  (@async_update_data flaky_library (sample_api (VStr "secret"))).1 =
    Raises (UpdateFailed "Failed to communicate with API: Timeout"
                         (HoleError "Timeout")).
Proof.
  split.
  - apply (@async_update_data_HoleError_is_UpdateFailed unreachable_library
             (sample_api VNone) "Cannot connect").
    left. reflexivity.
  - apply (@async_update_data_HoleError_is_UpdateFailed flaky_library
             (sample_api (VStr "secret")) "Timeout").
    right. split; reflexivity.
Defined.

Lemma async_update_data_auth_failed_iff_witness :
  (@async_update_data answering_library (sample_api VNone)).1
    = Raises ConfigEntryAuthFailed ∧
  (@async_update_data answering_library (sample_api (VStr "secret"))).1
    = Returns tt.
Proof.
  split.
  - apply (@async_update_data_auth_failed_iff answering_library
             (sample_api VNone)).
    eexists _, _. repeat split.
  - pose proof (@async_update_data_auth_failed_iff answering_library
                  (sample_api (VStr "secret"))) as [_ Hret].
    by rewrite (Hret _ _ eq_refl eq_refl eq_refl).
Defined.

(** ** Setting up an entry *)

Section SetupProperties.
Context `{Constants} `{HoleLibrary} `{HostFramework}.

Lemma cleaned_entry_id w :
  ConfigEntry.entry_id (entry (cleaned w)) = ConfigEntry.entry_id (entry w).
Proof. unfold cleaned. by case_bool_decide. Qed.

Lemma cleaned_hass_data w : hass_data (cleaned w) = hass_data w.
Proof. unfold cleaned. by case_bool_decide. Qed.

Lemma cleaned_holes w : holes (cleaned w) = holes w.
Proof. unfold cleaned. by case_bool_decide. Qed.

Lemma cleaned_coordinators w : coordinators (cleaned w) = coordinators w.
Proof. unfold cleaned. by case_bool_decide. Qed.

Lemma cleaned_client_sessions w :
  client_sessions (cleaned w) = client_sessions w.
Proof. unfold cleaned. by case_bool_decide. Qed.

Lemma cleaned_data w :
  ConfigEntry.data (entry (cleaned w)) =
    delete CONF_STATISTICS_ONLY (ConfigEntry.data (entry w)).
Proof.
  unfold cleaned. case_bool_decide as Hin; [done |].
  symmetry. apply delete_id. by apply eq_None_not_Some.
Qed.

(** A setup, stage by stage, for an entry that has the required keys. *)
Lemma async_setup_entry_run w :
  has_required_keys (ConfigEntry.data (entry w)) →
  async_setup_entry w =
    if bool_decide (is_Some (ConfigEntry.data (entry (cleaned w)) !! CONF_API_KEY))
    then
      match first_refresh (length (coordinators w)) (installed w) with
      | (Returns _, w3) =>
          match forward_entry_setups PLATFORMS w3 with
          | (Returns _, w4) => (Returns true, w4)
          | (Raises e, w4) => (Raises e, w4)
          end
      | (Raises e, w3) => (Raises e, w3)
      end
    else (Raises ConfigEntryAuthFailed, cleaned w).
Proof.
  intros ([name Hn] & [host Hh] & [ssl Hs] & [verify Hv] & [location Hl]).
  unfold async_setup_entry.
  unfold mbind at 1 2 3 4 5 6. unfold Py_bind, py_bind at 1 2 3 4 5 6.
  unfold entry_data_getitem, entry_data_get. cbv beta.
  rewrite Hn, Hh, Hs, Hv, Hl.
  unfold mbind at 1. unfold Py_bind, py_bind at 1.
  unfold entry_data_contains at 1. cbv beta.
  unfold mbind at 1. unfold Py_bind, py_bind at 1.
  match goal with
  | |- context [ (if ?b then ?x else ?y) w ] =>
      assert ((if b then x else y) w = (Returns tt, cleaned w)) as ->
  end.
  { unfold cleaned. case_bool_decide as Hin; [| done].
    destruct Hin as [v Hin]. unfold_py.
    unfold entry_data_copy, dict_pop. rewrite Hin.
    unfold_py. unfold update_entry. by unfold_py. }
  unfold_py. unfold entry_data_contains.
  case_bool_decide as Hkey; [| done].
  cbn [negb].
  assert (installed w =
          {| entry := entry (cleaned w);
             hass_data :=
               <[DOMAIN := <[ConfigEntry.entry_id (entry w) := stored_objects w]>
                             (default ∅ (hass_data w !! DOMAIN))]> (hass_data w);
             client_sessions :=
               (async_get_clientsession (client_sessions w) verify).2;
             holes := holes w ++
               [Hole_init host
                  (async_get_clientsession (client_sessions w) verify).1
                  location ssl
                  (default VNone (ConfigEntry.data (entry w) !! CONF_API_KEY))];
             coordinators := coordinators w ++
               [DataUpdateCoordinator.mk name
                  (async_update_data_of (length (holes w)))
                  MIN_TIME_BETWEEN_UPDATES];
             calls := calls (cleaned w) |}) as ->.
  { unfold installed, built_client, built_coordinator, sessions_after.
    by rewrite Hn, Hh, Hs, Hv, Hl. }
  unfold get_clientsession. rewrite cleaned_client_sessions.
  destruct (async_get_clientsession (client_sessions w) verify)
    as [session cache].
  cbn [fst snd].
  unfold new_hole, new_coordinator, entry_entry_id, hass_data_setdefault,
    hass_data_setitem.
  cbn [with_holes with_coordinators with_hass_data with_client_sessions
       holes coordinators hass_data client_sessions entry calls].
  rewrite !cleaned_holes, !cleaned_coordinators, !cleaned_hass_data.
  destruct (hass_data w !! DOMAIN) as [d|] eqn:Hd.
  - cbn [with_holes with_coordinators with_hass_data with_client_sessions
         holes coordinators hass_data client_sessions entry calls default].
    rewrite !cleaned_hass_data, Hd, cleaned_entry_id.
    reflexivity.
  - cbn [with_holes with_coordinators with_hass_data with_client_sessions
         holes coordinators hass_data client_sessions entry calls default].
    rewrite ?cleaned_hass_data, ?Hd.
    cbn [with_holes with_coordinators with_hass_data with_client_sessions
         holes coordinators hass_data client_sessions entry calls default].
    rewrite lookup_insert_eq, cleaned_entry_id, insert_insert_eq.
    reflexivity.
Qed.

(** The first refresh of a setup runs [async_update_data] on the client
    just built. *)
Lemma first_refresh_installed w :
  first_refresh (length (coordinators w)) (installed w) =
    let '(r, client) := async_update_data (built_client w) in
    (match r with
     | Returns _ => Returns tt
     | Raises e => Raises (first_refresh_error e)
     end, refreshed w client).
Proof.
  unfold first_refresh, record_call. unfold_py.
  cbn [installed with_calls coordinators holes hass_data entry calls].
  rewrite list_lookup_middle by done.
  unfold try_except, call_closure, built_coordinator, on_hole.
  cbn [DataUpdateCoordinator.update_method with_calls holes].
  change (holes (installed w)) with (holes w ++ [built_client w])%list.
  rewrite list_lookup_middle by done.
  destruct (async_update_data (built_client w)) as [r client].
  assert (<[length (holes w) := client]> (holes w ++ [built_client w])%list =
          (holes w ++ [client])%list) as Hins.
  { rewrite insert_app_r_alt by done. by rewrite Nat.sub_diag. }
  unfold refreshed.
  destruct r as [[] | e]; cbn [with_holes with_calls installed holes entry
    hass_data coordinators calls]; by rewrite Hins.
Qed.

Lemma forward_entry_setups_refreshed w client :
  forward_entry_setups PLATFORMS (refreshed w client) =
    (match forward_entry_setups_outcome (forwarded w client) PLATFORMS with
     | None => Returns tt
     | Some e => Raises e
     end, forwarded w client).
Proof.
  unfold forward_entry_setups, entry_entry_id, record_call. unfold_py.
  assert (with_calls
            (calls (refreshed w client) ++
             [{| call := async_forward_entry_setups
                           (ConfigEntry.entry_id (entry (refreshed w client)))
                           PLATFORMS;
                 hass_data_then := hass_data (refreshed w client) |}])
            (refreshed w client) = forwarded w client) as ->.
  { unfold forwarded. do 3 f_equal.
    cbn [refreshed with_holes with_calls installed entry].
    by rewrite cleaned_entry_id. }
  by destruct (forward_entry_setups_outcome (forwarded w client) PLATFORMS).
Qed.

(** A setup that gets past the two guards, in full. *)
Lemma async_setup_entry_past_guards w :
  has_required_keys (ConfigEntry.data (entry w)) →
  is_Some (ConfigEntry.data (entry (cleaned w)) !! CONF_API_KEY) →
  async_setup_entry w =
    let '(r, client) := async_update_data (built_client w) in
    match r with
    | Returns _ =>
        match forward_entry_setups_outcome (forwarded w client) PLATFORMS with
        | None => (Returns true, forwarded w client)
        | Some e => (Raises e, forwarded w client)
        end
    | Raises e => (Raises (first_refresh_error e), refreshed w client)
    end.
Proof.
  intros Hreq Hkey. rewrite (async_setup_entry_run w Hreq).
  rewrite bool_decide_true by done.
  rewrite first_refresh_installed.
  destruct (async_update_data (built_client w)) as [[[] | e] client]; [| done].
  rewrite forward_entry_setups_refreshed.
  by destruct (forward_entry_setups_outcome (forwarded w client) PLATFORMS).
Qed.

(** A setup stopped by the API-key guard. *)
Lemma async_setup_entry_no_api_key w :
  has_required_keys (ConfigEntry.data (entry w)) →
  ConfigEntry.data (entry w) !! CONF_API_KEY = None →
  async_setup_entry w = (Raises ConfigEntryAuthFailed, cleaned w).
Proof.
  intros Hreq Hkey. rewrite (async_setup_entry_run w Hreq).
  rewrite bool_decide_false; [done |].
  rewrite cleaned_data. intros [v Hv].
  apply lookup_delete_Some in Hv as [_ Hv]. congruence.
Qed.

(** A setup stopped by a missing required key. *)
Lemma async_setup_entry_missing_key w :
  ¬ has_required_keys (ConfigEntry.data (entry w)) →
  ∃ key, async_setup_entry w = (Raises (KeyError key), w).
Proof.
  intros Hmiss.
  unfold async_setup_entry, has_required_keys in *.
  unfold mbind at 1 2 3 4 5. unfold Py_bind, py_bind at 1 2 3 4 5.
  unfold entry_data_getitem. cbv beta.
  destruct (ConfigEntry.data (entry w) !! CONF_NAME); [| by eexists].
  destruct (ConfigEntry.data (entry w) !! CONF_HOST); [| by eexists].
  destruct (ConfigEntry.data (entry w) !! CONF_SSL); [| by eexists].
  destruct (ConfigEntry.data (entry w) !! CONF_VERIFY_SSL); [| by eexists].
  destruct (ConfigEntry.data (entry w) !! CONF_LOCATION); [| by eexists].
  destruct Hmiss. by repeat split.
Qed.

(** A setup that returns got past both guards, and returned [True]. *)
Lemma async_setup_entry_returns_inv w b :
  (async_setup_entry w).1 = Returns b →
  b = true ∧
  has_required_keys (ConfigEntry.data (entry w)) ∧
  is_Some (ConfigEntry.data (entry (cleaned w)) !! CONF_API_KEY) ∧
  ∃ client, async_setup_entry w = (Returns true, forwarded w client).
Proof.
  intros Hret.
  destruct (decide (has_required_keys (ConfigEntry.data (entry w))))
    as [Hreq | Hmiss]; last first.
  { destruct (async_setup_entry_missing_key w Hmiss) as [key Hrun].
    by rewrite Hrun in Hret. }
  destruct (decide (is_Some (ConfigEntry.data (entry (cleaned w)) !! CONF_API_KEY)))
    as [Hkey | Hno]; last first.
  { rewrite (async_setup_entry_run w Hreq), bool_decide_false in Hret by done.
    done. }
  rewrite (async_setup_entry_past_guards w Hreq Hkey) in Hret |- *.
  destruct (async_update_data (built_client w)) as [[[] | e] client];
    [| done].
  destruct (forward_entry_setups_outcome (forwarded w client) PLATFORMS);
    [done |].
  simpl in Hret. injection Hret as <-. eauto.
Qed.

(** What the cleanup adds to the trace. *)
Lemma cleaned_entry_updates w :
  entry_updates (calls (cleaned w)) =
    (entry_updates (calls w) ++
     if bool_decide (is_Some (ConfigEntry.data (entry w) !! CONF_STATISTICS_ONLY))
     then [(ConfigEntry.entry_id (entry w),
            delete CONF_STATISTICS_ONLY (ConfigEntry.data (entry w)))]
     else [])%list.
Proof.
  unfold cleaned. case_bool_decide; cbn [with_entry with_calls calls].
  - unfold entry_updates. by rewrite omap_app.
  - by rewrite app_nil_r.
Qed.

Lemma cleaned_first_refreshes w :
  first_refreshes (calls (cleaned w)) = first_refreshes (calls w).
Proof.
  unfold cleaned. case_bool_decide; cbn [with_entry with_calls calls]; [| done].
  unfold first_refreshes. rewrite omap_app. cbn. by rewrite app_nil_r.
Qed.

Lemma cleaned_forwarded_setups w :
  forwarded_setups (calls (cleaned w)) = forwarded_setups (calls w).
Proof.
  unfold cleaned. case_bool_decide; cbn [with_entry with_calls calls]; [| done].
  unfold forwarded_setups. rewrite omap_app. cbn. by rewrite app_nil_r.
Qed.

(** Whatever happens after the cleanup, the entry and the updates made to
    it stay as the cleanup left them. *)
Lemma async_setup_entry_keeps_cleaned_entry w :
  has_required_keys (ConfigEntry.data (entry w)) →
  entry (async_setup_entry w).2 = entry (cleaned w) ∧
  entry_updates (calls (async_setup_entry w).2) =
    entry_updates (calls (cleaned w)).
Proof.
  intros Hreq.
  destruct (decide (is_Some (ConfigEntry.data (entry (cleaned w)) !! CONF_API_KEY)))
    as [Hkey | Hno].
  - rewrite (async_setup_entry_past_guards w Hreq Hkey).
    destruct (async_update_data (built_client w)) as [[[] | e] client].
    + destruct (forward_entry_setups_outcome (forwarded w client) PLATFORMS);
        cbn [snd forwarded refreshed with_calls with_holes installed entry calls];
        (split; [done |]); unfold entry_updates; rewrite !omap_app; cbn;
        by rewrite !app_nil_r.
    + cbn [snd forwarded refreshed with_calls with_holes installed entry calls].
      split; [done |]. unfold entry_updates. rewrite !omap_app. cbn.
      by rewrite !app_nil_r.
  - rewrite (async_setup_entry_run w Hreq), bool_decide_false by done. done.
Qed.

(** C3, as the code has it. The API key is read with [.get], but a setup
    needs it: for an entry with the required keys and no API key,
    [async_setup_entry] raises [ConfigEntryAuthFailed] and has created no
    client and no coordinator, stored nothing under [hass.data], and
    neither refreshed nor forwarded to a platform. *)
Theorem async_setup_entry_requires_api_key w :
  has_required_keys (ConfigEntry.data (entry w)) →
  ConfigEntry.data (entry w) !! CONF_API_KEY = None →
  (async_setup_entry w).1 = Raises ConfigEntryAuthFailed ∧
  holes (async_setup_entry w).2 = holes w ∧
  coordinators (async_setup_entry w).2 = coordinators w ∧
  hass_data (async_setup_entry w).2 = hass_data w ∧
  first_refreshes (calls (async_setup_entry w).2) = first_refreshes (calls w) ∧
  forwarded_setups (calls (async_setup_entry w).2) = forwarded_setups (calls w).
Proof.
  intros Hreq Hkey. rewrite (async_setup_entry_no_api_key w Hreq Hkey).
  cbn [fst snd].
  by rewrite cleaned_holes, cleaned_coordinators, cleaned_hass_data,
    cleaned_first_refreshes, cleaned_forwarded_setups.
Qed.

(** C4. An authentication failure is raised as [ConfigEntryAuthFailed]:
    by [async_setup_entry] when the entry has no API key, and by
    [async_update_data] when both requests return and [api.data] is not
    a dict. The only other exception the update method raises of its own
    is [UpdateFailed], and only for a [HoleError] of a request; and no
    setup returns for an entry without an API key. *)
Theorem auth_failure_is_ConfigEntryAuthFailed :
  (∀ w,
     has_required_keys (ConfigEntry.data (entry w)) →
     ConfigEntry.data (entry w) !! CONF_API_KEY = None →
     (async_setup_entry w).1 = Raises ConfigEntryAuthFailed) ∧
  (∀ api api1 api2,
     get_data api = (None, api1) → get_versions api1 = (None, api2) →
     isinstance_dict (Hole.data api2) = false →
     (async_update_data api).1 = Raises ConfigEntryAuthFailed) ∧
  (∀ api e,
     (async_update_data api).1 = Raises e →
     e = ConfigEntryAuthFailed ∨
     (∃ err, e = UpdateFailed ("Failed to communicate with API: " +:+ err)
                              (HoleError err) ∧
             ((get_data api).1 = Some (HoleError err) ∨
              (get_versions (get_data api).2).1 = Some (HoleError err))) ∨
     (∃ other, e = Lib (OtherLibraryError other))) ∧
  (∀ w b,
     ConfigEntry.data (entry w) !! CONF_API_KEY = None →
     (async_setup_entry w).1 ≠ Returns b).
Proof.
  split; [| split; [| split]].
  - intros w Hreq Hkey. by rewrite (async_setup_entry_no_api_key w Hreq Hkey).
  - intros api api1 api2 Hd Hv Hnot.
    by rewrite (async_update_data_fetched _ _ _ Hd Hv), Hnot.
  - intros api e Hout.
    destruct (get_data api) as [[e1|] api1] eqn:Ed.
    { rewrite (async_update_data_get_data_raises _ _ _ Ed) in Hout.
      destruct e1; simpl in Hout; injection Hout as <-; eauto 6. }
    simpl. destruct (get_versions api1) as [[e2|] api2] eqn:Ev.
    { rewrite (async_update_data_get_versions_raises _ _ _ _ Ed Ev) in Hout.
      destruct e2; simpl in Hout; injection Hout as <-; eauto 6. }
    rewrite (async_update_data_fetched _ _ _ Ed Ev) in Hout.
    destruct (isinstance_dict (Hole.data api2)); simpl in Hout; [done |].
    injection Hout as <-. by left.
  - intros w b Hkey Hret.
    destruct (async_setup_entry_returns_inv w b Hret) as (_ & _ & [v Hv] & _).
    rewrite cleaned_data in Hv.
    apply lookup_delete_Some in Hv as [_ Hv]. congruence.
Qed.

(** C5. When [CONF_STATISTICS_ONLY] is in [entry.data] (of an entry with
    the keys the setup reads first), the setup updates the entry once,
    with the data without that key and with every other key as it was;
    when it is not in [entry.data], the setup does not update the entry. *)
Theorem async_setup_entry_drops_statistics_only w :
  let d := ConfigEntry.data (entry w) in
  let w' := (async_setup_entry w).2 in
  (has_required_keys d →
   is_Some (d !! CONF_STATISTICS_ONLY) →
   entry_updates (calls w') =
     (entry_updates (calls w) ++
      [(ConfigEntry.entry_id (entry w), delete CONF_STATISTICS_ONLY d)])%list ∧
   ConfigEntry.data (entry w') = delete CONF_STATISTICS_ONLY d ∧
   ConfigEntry.data (entry w') !! CONF_STATISTICS_ONLY = None ∧
   ∀ key, key ≠ CONF_STATISTICS_ONLY →
     ConfigEntry.data (entry w') !! key = d !! key) ∧
  (d !! CONF_STATISTICS_ONLY = None →
   entry_updates (calls w') = entry_updates (calls w) ∧
   entry w' = entry w).
Proof.
  intros d w'. split.
  - intros Hreq Hin.
    destruct (async_setup_entry_keeps_cleaned_entry w Hreq) as [Hentry Hupd].
    fold w' in Hentry, Hupd.
    rewrite Hupd, Hentry, cleaned_entry_updates, cleaned_data.
    rewrite bool_decide_true by done. fold d.
    repeat split.
    + apply lookup_delete_eq.
    + intros key Hne. by apply lookup_delete_ne.
  - intros Hnot.
    destruct (decide (has_required_keys d)) as [Hreq | Hmiss].
    + destruct (async_setup_entry_keeps_cleaned_entry w Hreq) as [Hentry Hupd].
      fold w' in Hentry, Hupd.
      rewrite Hupd, Hentry, cleaned_entry_updates.
      rewrite bool_decide_false by (fold d; rewrite Hnot; by intros [? ?]).
      rewrite app_nil_r. split; [done |].
      unfold cleaned.
      by rewrite bool_decide_false by (fold d; rewrite Hnot; by intros [? ?]).
    + destruct (async_setup_entry_missing_key w Hmiss) as [key Hrun].
      subst w'. by rewrite Hrun.
Qed.






(** C9. After a setup that returned, [hass.data[DOMAIN][entry.entry_id]]
    is a mapping with exactly the keys [DATA_KEY_API] and
    [DATA_KEY_COORDINATOR], bound to the addresses of the client and the
    coordinator this setup created; and [hass.data] already was what it
    is now when the first refresh was awaited. *)
Theorem async_setup_entry_stores_api_and_coordinator w :
  (async_setup_entry w).1 = Returns true →
  DATA_KEY_API ≠ DATA_KEY_COORDINATOR →
  let w' := (async_setup_entry w).2 in
  ∃ d m,
    hass_data w' !! DOMAIN = Some d ∧
    d !! ConfigEntry.entry_id (entry w) = Some m ∧
    dom m = {[DATA_KEY_API; DATA_KEY_COORDINATOR]} ∧
    size m = 2 ∧
    m !! DATA_KEY_API = Some (HoleAt (length (holes w))) ∧
    m !! DATA_KEY_COORDINATOR = Some (CoordinatorAt (length (coordinators w))) ∧
    (∃ client, holes w' = (holes w ++ [client])%list) ∧
    (∃ c, coordinators w' = (coordinators w ++ [c])%list) ∧
    first_refreshes (calls w') =
      (first_refreshes (calls w) ++
       [(length (coordinators w), hass_data w')])%list.
Proof.
  intros Hret Hne w'.
  destruct (async_setup_entry_returns_inv w true Hret)
    as (_ & _ & _ & client & Hrun).
  subst w'. rewrite Hrun.
  cbn [snd forwarded refreshed with_calls with_holes installed hass_data
       holes coordinators calls].
  eexists _, (stored_objects w). split; [apply lookup_insert_eq |].
  split; [apply lookup_insert_eq |].
  unfold stored_objects. repeat split.
  - rewrite !dom_insert_L, dom_empty_L, (right_id_L ∅ (∪)).
    apply (comm_L (∪)).
  - rewrite map_size_insert_None.
    + by rewrite map_size_insert_None, map_size_empty.
    + rewrite lookup_insert_ne by done. apply lookup_empty.
  - rewrite lookup_insert_ne by done. apply lookup_insert_eq.
  - apply lookup_insert_eq.
  - by exists client.
  - by exists (built_coordinator w).
  - unfold first_refreshes. rewrite !omap_app. cbn.
    fold (first_refreshes (calls (cleaned w))).
    by rewrite cleaned_first_refreshes, app_nil_r.
Qed.

(** An unload, in full. *)
Lemma async_unload_entry_run w :
  async_unload_entry w =
    if unload_platforms_outcome (unloading w) PLATFORMS
    then
      match hass_data w !! DOMAIN with
      | Some d =>
          match d !! ConfigEntry.entry_id (entry w) with
          | Some _ =>
              (Returns true,
               with_hass_data
                 (<[DOMAIN := delete (ConfigEntry.entry_id (entry w)) d]>
                    (hass_data w)) (unloading w))
          | None =>
              (Raises (KeyError (ConfigEntry.entry_id (entry w))), unloading w)
          end
      | None => (Raises (KeyError DOMAIN), unloading w)
      end
    else (Returns false, unloading w).
Proof.
  unfold async_unload_entry, unload_platforms, entry_entry_id, record_call.
  unfold_py. fold (unloading w).
  destruct (unload_platforms_outcome (unloading w) PLATFORMS); [| done].
  unfold_py. unfold hass_data_pop.
  cbn [unloading with_calls hass_data entry].
  destruct (hass_data w !! DOMAIN) as [d |]; [| done].
  by destruct (d !! ConfigEntry.entry_id (entry w)).
Qed.

(** C10. [PLATFORMS] is binary_sensor, sensor, switch and update; a setup
    that returns has forwarded the entry once, to [PLATFORMS], and an
    unload asks the host once, to unload [PLATFORMS]. *)
Theorem setup_and_unload_use_the_same_platforms :
  PLATFORMS = [BINARY_SENSOR; SENSOR; SWITCH; UPDATE] ∧
  (∀ w,
     (async_setup_entry w).1 = Returns true →
     forwarded_setups (calls (async_setup_entry w).2) =
       (forwarded_setups (calls w) ++
        [(ConfigEntry.entry_id (entry w),
          [BINARY_SENSOR; SENSOR; SWITCH; UPDATE])])%list) ∧
  (∀ w,
     unloaded_platforms (calls (async_unload_entry w).2) =
       (unloaded_platforms (calls w) ++
        [(ConfigEntry.entry_id (entry w),
          [BINARY_SENSOR; SENSOR; SWITCH; UPDATE])])%list).
Proof.
  split; [done |]. split.
  - intros w Hret.
    destruct (async_setup_entry_returns_inv w true Hret)
      as (_ & _ & _ & client & Hrun).
    rewrite Hrun.
    cbn [snd forwarded refreshed with_calls with_holes installed calls].
    unfold forwarded_setups. rewrite !omap_app. cbn.
    fold (forwarded_setups (calls (cleaned w))).
    by rewrite cleaned_forwarded_setups, app_nil_r.
  - intros w. rewrite async_unload_entry_run.
    assert (unloaded_platforms (calls (unloading w)) =
            (unloaded_platforms (calls w) ++
             [(ConfigEntry.entry_id (entry w), PLATFORMS)])%list) as Hlog.
    { unfold unloading, unloaded_platforms. cbn [with_calls calls].
      by rewrite omap_app. }
    destruct (unload_platforms_outcome (unloading w) PLATFORMS); [| done].
    destruct (hass_data w !! DOMAIN) as [d |]; [| done].
    by destruct (d !! ConfigEntry.entry_id (entry w)).
Qed.

(** C6. [async_unload_entry] returns what unloading the platforms
    returned. When that is false, [hass.data] is left as it was; when the
    entry has its mapping under [hass.data[DOMAIN]], the mapping is
    removed exactly when that is true, and nothing else is. *)
Theorem async_unload_entry_removes_iff_unloaded w :
  let unload_ok := unload_platforms_outcome (unloading w) PLATFORMS in
  let w' := (async_unload_entry w).2 in
  let stored w :=
    hass_data w !! DOMAIN ≫= (.!! ConfigEntry.entry_id (entry w)) in
  (unload_ok = false →
   (async_unload_entry w).1 = Returns false ∧ hass_data w' = hass_data w) ∧
  (∀ d m,
     hass_data w !! DOMAIN = Some d →
     d !! ConfigEntry.entry_id (entry w) = Some m →
     (async_unload_entry w).1 = Returns unload_ok ∧
     hass_data w' =
       (if unload_ok
        then <[DOMAIN := delete (ConfigEntry.entry_id (entry w)) d]>
               (hass_data w)
        else hass_data w) ∧
     (stored w' = None ↔ unload_ok = true) ∧
     (stored w' = Some m ↔ unload_ok = false)).
Proof.
  intros unload_ok w' stored. subst w' stored.
  rewrite async_unload_entry_run. fold unload_ok. split.
  - by intros ->.
  - intros d m Hd Hm. rewrite Hd, Hm.
    destruct unload_ok;
      cbn [fst snd with_hass_data unloading with_calls hass_data entry].
    + split; [done |]. split; [done |].
      rewrite lookup_insert_eq. cbn. rewrite lookup_delete_eq. by split.
    + split; [done |]. split; [done |].
      rewrite Hd. cbn. rewrite Hm. by split.
Qed.
End SetupProperties.

(** ** The entity *)

Section EntityProperties.
Context `{Constants}.

(** C7. [device_info] is determined by the stored fields: the URL is
    "https://" or "http://", by the truth of [api.tls], followed by
    [api.host], "/" and [api.location]; [identifiers] holds the one pair
    of [DOMAIN] and the server's unique id; [name] is the stored name and
    [manufacturer] is "Pi-hole". Reading it changes nothing. *)
Theorem device_info_of_stored_fields w self client host location :
  holes w !! api self = Some client →
  Hole.host client = VStr host →
  Hole.location client = VStr location →
  device_info self w =
    (Returns
       (DeviceInfo.mk
          {[ (DOMAIN, _server_unique_id self) ]}
          (_name self)
          "Pi-hole"
          ((if truthy (Hole.tls client) then "https://" else "http://")
           +:+ host +:+ "/" +:+ location)),
     w).
Proof.
  intros Hclient Hhost Hlocation.
  unfold device_info, on_hole. rewrite Hclient.
  unfold mbind, mret, Py_bind, Py_ret, py_bind, py_ret, get_state. cbv beta.
  rewrite Hhost, Hlocation. cbn [py_str].
  rewrite list_insert_id by done.
  destruct w; cbn [with_holes entry hass_data holes coordinators calls].
  by destruct (truthy (Hole.tls client)).
Qed.
End EntityProperties.

(** ** The properties on the concrete installation *)

(** An entry with name, host, TLS flag, verify flag and location path but
    no API key: the setup raises [ConfigEntryAuthFailed] and neither
    creates a client or a coordinator nor forwards to the platforms. *)
Lemma setup_without_api_key_does_not_proceed :
  let run := @async_setup_entry ha_constants answering_library
               (obliging_host true) (fresh_world entry_without_key) in
  @has_required_keys ha_constants (ConfigEntry.data entry_without_key) ∧
  ConfigEntry.data entry_without_key !! "api_key" = None ∧
  run.1 = Raises ConfigEntryAuthFailed ∧
  run.1 ≠ Returns true ∧
  holes run.2 = [] ∧
  coordinators run.2 = [] ∧
  forwarded_setups (calls run.2) = [].
Proof.
  repeat split; try (eexists; vm_compute; reflexivity);
    try (vm_compute; reflexivity).
  vm_compute. discriminate.
Qed.

Lemma async_setup_entry_requires_api_key_witness :
  let w := fresh_world entry_without_key in
  let run := @async_setup_entry ha_constants answering_library
               (obliging_host true) w in
  run.1 = Raises ConfigEntryAuthFailed ∧
  holes run.2 = holes w ∧
  coordinators run.2 = coordinators w ∧
  hass_data run.2 = hass_data w ∧
  first_refreshes (calls run.2) = first_refreshes (calls w) ∧
  forwarded_setups (calls run.2) = forwarded_setups (calls w).
Proof.
  apply (@async_setup_entry_requires_api_key ha_constants answering_library
           (obliging_host true) (fresh_world entry_without_key)).
  - evaluate.
  - vm_compute. reflexivity.
Defined.

Lemma auth_failure_is_ConfigEntryAuthFailed_witness :
  (@async_setup_entry ha_constants answering_library (obliging_host true)
     (fresh_world entry_without_key)).1 = Raises ConfigEntryAuthFailed ∧
  (@async_update_data answering_library (sample_api VNone)).1
    = Raises ConfigEntryAuthFailed.
Proof.
  destruct (@auth_failure_is_ConfigEntryAuthFailed ha_constants
              answering_library (obliging_host true)) as (Hsetup & Hupdate & _ & _).
  split.
  - apply Hsetup; [evaluate | vm_compute; reflexivity].
  - apply (Hupdate (sample_api VNone) _ _ eq_refl eq_refl). reflexivity.
Defined.

Lemma async_setup_entry_drops_statistics_only_witness :
  let w := fresh_world entry_with_key in
  let w' := (@async_setup_entry ha_constants answering_library
               (obliging_host true) w).2 in
  entry_updates (calls w') =
    [("entry-1",
      delete "statistics_only" (ConfigEntry.data entry_with_key))] ∧
  ConfigEntry.data (entry w') !! "statistics_only" = None ∧
  ConfigEntry.data (entry w') !! "api_key" = Some (VStr "secret") ∧
  entry_updates
    (calls (@async_setup_entry ha_constants answering_library
              (obliging_host true) (fresh_world entry_without_key)).2) = [].
Proof.
  destruct (@async_setup_entry_drops_statistics_only ha_constants
              answering_library (obliging_host true)
              (fresh_world entry_with_key)) as [Hpresent _].
  destruct Hpresent as (Hupd & _ & Hgone & Hkept).
  - evaluate.
  - eexists. vm_compute. reflexivity.
  - split; [exact Hupd |]. split; [exact Hgone |]. split.
    + rewrite Hkept; [vm_compute; reflexivity | discriminate].
    + destruct (@async_setup_entry_drops_statistics_only ha_constants
                  answering_library (obliging_host true)
                  (fresh_world entry_without_key)) as [_ Habsent].
      destruct Habsent as [Hnone _]; [vm_compute; reflexivity |].
      exact Hnone.
Defined.

Lemma async_unload_entry_removes_iff_unloaded_witness :
  (@async_unload_entry ha_constants (obliging_host true) (set_up_world true)).1
    = Returns true ∧
  (hass_data (@async_unload_entry ha_constants (obliging_host true)
                (set_up_world true)).2 !! "pi_hole" ≫= (.!! "entry-1")) = None ∧
  (@async_unload_entry ha_constants (obliging_host false) (set_up_world false)).1
    = Returns false ∧
  hass_data (@async_unload_entry ha_constants (obliging_host false)
               (set_up_world false)).2 = hass_data (set_up_world false).
Proof.
  destruct (@async_unload_entry_removes_iff_unloaded ha_constants
              (obliging_host true) (set_up_world true)) as [_ Hstored].
  destruct (Hstored
              {["entry-1" := {["api" := HoleAt 0; "coordinator" := CoordinatorAt 0]}]}
              {["api" := HoleAt 0; "coordinator" := CoordinatorAt 0]})
    as (Hret & _ & Hgone & _); [vm_compute; reflexivity .. |].
  destruct (@async_unload_entry_removes_iff_unloaded ha_constants
              (obliging_host false) (set_up_world false)) as [Hfailed _].
  destruct Hfailed as [Hret' Hkept]; [vm_compute; reflexivity |].
  split; [exact Hret |]. split; [by apply Hgone |].
  split; [exact Hret' | exact Hkept].
Defined.

Lemma device_info_of_stored_fields_witness :
  @device_info ha_constants sample_entity (set_up_world true) =
    (Returns
       (DeviceInfo.mk {[ ("pi_hole", "entry-1") ]} "Pi-Hole" "Pi-hole"
                      "http://192.168.1.2/admin"),
     set_up_world true).
Proof.
  apply (@device_info_of_stored_fields ha_constants (set_up_world true)
           sample_entity
           (Hole.mk (VStr "192.168.1.2")
                    {| verify_ssl := VBool true; requests := 2 |}
                    (VStr "admin") (VBool false) (VStr "secret")
                    (JDict [("ads_blocked_today", JNum 12%Z)])
                    (JDict [("core_update", JBool false)]))
           "192.168.1.2" "admin");
    vm_compute; reflexivity.
Defined.


(** With a token that expires, the first fetch of the timer requires
    re-authentication and no other follows. *)
Example poll_stops_at_reauth :
  let w := (@async_setup_entry ha_constants expiring_library
              (obliging_host true) (fresh_world entry_with_key)) in
  w.1 = Returns true ∧
  ∃ c, coordinators w.2 = [c] ∧
       (@poll expiring_library 3 c 1000 w.2).1 =
         [(1300%Z, Raises ConfigEntryAuthFailed)].
Proof. split; [| eexists; split]; vm_compute; reflexivity. Qed.

Lemma async_setup_entry_stores_api_and_coordinator_witness :
  ∃ d m,
    hass_data (set_up_world true) !! "pi_hole" = Some d ∧
    d !! "entry-1" = Some m ∧
    dom m = {["api"; "coordinator"]} ∧
    m !! "api" = Some (HoleAt 0) ∧
    m !! "coordinator" = Some (CoordinatorAt 0) ∧
    first_refreshes (calls (set_up_world true)) =
      [(0, hass_data (set_up_world true))].
Proof.
  destruct (@async_setup_entry_stores_api_and_coordinator ha_constants
              answering_library (obliging_host true)
              (fresh_world entry_with_key))
    as (d & m & Hd & Hm & Hdom & _ & Hapi & Hcoordinator & _ & _ & Hrefresh).
  - vm_compute. reflexivity.
  - discriminate.
  - exists d, m. repeat split; assumption.
Defined.

Lemma setup_and_unload_use_the_same_platforms_witness :
  forwarded_setups (calls (set_up_world true)) =
    [("entry-1", [BINARY_SENSOR; SENSOR; SWITCH; UPDATE])] ∧
  unloaded_platforms
    (calls (@async_unload_entry ha_constants (obliging_host true)
              (set_up_world true)).2) =
    [("entry-1", [BINARY_SENSOR; SENSOR; SWITCH; UPDATE])].
Proof.
  destruct (@setup_and_unload_use_the_same_platforms ha_constants
              answering_library (obliging_host true))
    as (_ & Hsetup & Hunload).
  split.
  - apply (Hsetup (fresh_world entry_with_key)). vm_compute. reflexivity.
  - apply (Hunload (set_up_world true)).
Defined.

(** ** Further properties of the update method *)

Section FurtherUpdateProperties.
Context `{HoleLibrary}.

(** An exception of a request that is not a [HoleError] is not caught: it
    leaves [async_update_data] as it is, and the client is as the failing
    request left it. When it is [get_data] that raises, [get_versions] is
    not called. *)
Theorem async_update_data_other_error_propagates api other :
  (∀ api1,
     get_data api = (Some (OtherLibraryError other), api1) →
     async_update_data api = (Raises (Lib (OtherLibraryError other)), api1)) ∧
  (∀ api1 api2,
     get_data api = (None, api1) →
     get_versions api1 = (Some (OtherLibraryError other), api2) →
     async_update_data api = (Raises (Lib (OtherLibraryError other)), api2)).
Proof.
  split.
  - intros api1 Hd. by rewrite (async_update_data_get_data_raises _ _ _ Hd).
  - intros api1 api2 Hd Hv.
    by rewrite (async_update_data_get_versions_raises _ _ _ _ Hd Hv).
Qed.

(** [async_update_data] returns only after both requests returned, and
    then [api.data] is a dict. *)
Theorem async_update_data_returns_only_with_dict api api' :
  async_update_data api = (Returns tt, api') →
  ∃ api1,
    get_data api = (None, api1) ∧ get_versions api1 = (None, api') ∧
    isinstance_dict (Hole.data api') = true.
Proof.
  intros Hret.
  destruct (get_data api) as [[e |] api1] eqn:Ed.
  { rewrite (async_update_data_get_data_raises _ _ _ Ed) in Hret.
    by destruct e. }
  destruct (get_versions api1) as [[e |] api2] eqn:Ev.
  { rewrite (async_update_data_get_versions_raises _ _ _ _ Ed Ev) in Hret.
    by destruct e. }
  rewrite (async_update_data_fetched _ _ _ Ed Ev) in Hret.
  destruct (isinstance_dict (Hole.data api2)) eqn:Hdict; [| done].
  injection Hret as <-. by exists api1.
Qed.

(** What a fetch that returned left in [api.data]. *)
Lemma async_update_data_returned_dict api api' :
  async_update_data api = (Returns tt, api') →
  isinstance_dict (Hole.data api') = true.
Proof.
  intros Hret.
  destruct (get_data api) as [[e |] api1] eqn:Ed.
  { rewrite (async_update_data_get_data_raises _ _ _ Ed) in Hret.
    by destruct e. }
  destruct (get_versions api1) as [[e |] api2] eqn:Ev.
  { rewrite (async_update_data_get_versions_raises _ _ _ _ Ed Ev) in Hret.
    by destruct e. }
  rewrite (async_update_data_fetched _ _ _ Ed Ev) in Hret.
  destruct (isinstance_dict (Hole.data api2)) eqn:Hdict; [| done].
  by injection Hret as <-.
Qed.

(** With a library that keeps the address, so does [async_update_data],
    however it ends. *)
Lemma async_update_data_keeps_address api :
  keeps_address →
  Hole.host (async_update_data api).2 = Hole.host api ∧
  Hole.location (async_update_data api).2 = Hole.location api ∧
  Hole.tls (async_update_data api).2 = Hole.tls api.
Proof.
  intros Hkeep.
  destruct (Hkeep api) as [(Hh1 & Hl1 & Ht1) _].
  destruct (get_data api) as [[e |] api1] eqn:Ed; simpl in Hh1, Hl1, Ht1.
  { rewrite (async_update_data_get_data_raises _ _ _ Ed). by destruct e. }
  destruct (Hkeep api1) as [_ (Hh2 & Hl2 & Ht2)].
  destruct (get_versions api1) as [[e |] api2] eqn:Ev; simpl in Hh2, Hl2, Ht2.
  { rewrite (async_update_data_get_versions_raises _ _ _ _ Ed Ev).
    destruct e; simpl; by rewrite Hh2, Hl2, Ht2. }
  rewrite (async_update_data_fetched _ _ _ Ed Ev).
  destruct (isinstance_dict (Hole.data api2)); simpl; by rewrite Hh2, Hl2, Ht2.
Qed.
End FurtherUpdateProperties.

(** ** Further properties of setup and unload *)

Section FurtherSetupProperties.
Context `{Constants} `{HoleLibrary} `{HostFramework}.

(** Writing back the heap as it is changes nothing. *)
Lemma with_holes_same w : with_holes (holes w) w = w.
Proof. by destruct w. Qed.

(** Where a setup can end. *)
Lemma async_setup_entry_ends w :
  (async_setup_entry w).2 = w ∨
  (async_setup_entry w).2 = cleaned w ∨
  ∃ client,
    (async_update_data (built_client w)).2 = client ∧
    ((async_setup_entry w).2 = refreshed w client ∨
     (async_setup_entry w).2 = forwarded w client).
Proof.
  destruct (decide (has_required_keys (ConfigEntry.data (entry w))))
    as [Hreq | Hmiss]; last first.
  { destruct (async_setup_entry_missing_key w Hmiss) as [key Hrun].
    left. by rewrite Hrun. }
  destruct (decide (is_Some (ConfigEntry.data (entry (cleaned w)) !! CONF_API_KEY)))
    as [Hkey | Hno]; last first.
  { right. left.
    by rewrite (async_setup_entry_run w Hreq), bool_decide_false by done. }
  right. right. rewrite (async_setup_entry_past_guards w Hreq Hkey).
  destruct (async_update_data (built_client w)) as [[[] | e] client];
    exists client; (split; [done |]).
  - destruct (forward_entry_setups_outcome (forwarded w client) PLATFORMS);
      by right.
  - by left.
Qed.

(** A setup that returns: the first fetch returned, the platforms were set
    up, and the world is the one after forwarding. *)
Lemma async_setup_entry_returns_client w b :
  (async_setup_entry w).1 = Returns b →
  ∃ client,
    async_update_data (built_client w) = (Returns tt, client) ∧
    async_setup_entry w = (Returns true, forwarded w client).
Proof.
  intros Hret.
  destruct (async_setup_entry_returns_inv w b Hret) as (_ & Hreq & Hkey & _).
  rewrite (async_setup_entry_past_guards w Hreq Hkey) in Hret |- *.
  destruct (async_update_data (built_client w)) as [[[] | e] client]; [| done].
  destruct (forward_entry_setups_outcome (forwarded w client) PLATFORMS);
    [done |].
  by exists client.
Qed.

(** A missing required key ends the setup at once: [KeyError] for the
    first key, in reading order, that [entry.data] lacks, with the entry,
    [hass.data], the heap and the trace of host calls all as they were. *)
Theorem async_setup_entry_first_missing_key w key :
  first_missing_key (ConfigEntry.data (entry w)) = Some key →
  async_setup_entry w = (Raises (KeyError key), w).
Proof.
  unfold first_missing_key, required_keys. cbn [find].
  unfold async_setup_entry.
  unfold mbind at 1 2 3 4 5. unfold Py_bind, py_bind at 1 2 3 4 5.
  unfold entry_data_getitem. cbv beta.
  repeat (case_bool_decide as Hk; cbn [negb];
          [destruct Hk as [? ->] | intros [= <-];
           apply eq_None_not_Some in Hk; by rewrite Hk]).
  done.
Qed.

(** The obsolete key is dropped before the API key is asked for: an entry
    with [CONF_STATISTICS_ONLY] and without [CONF_API_KEY] has been
    updated, to its data without the obsolete key, by the time the setup
    raises [ConfigEntryAuthFailed]. *)
Theorem async_setup_entry_cleans_before_api_key_guard w v :
  has_required_keys (ConfigEntry.data (entry w)) →
  ConfigEntry.data (entry w) !! CONF_API_KEY = None →
  ConfigEntry.data (entry w) !! CONF_STATISTICS_ONLY = Some v →
  (async_setup_entry w).1 = Raises ConfigEntryAuthFailed ∧
  ConfigEntry.data (entry (async_setup_entry w).2) =
    delete CONF_STATISTICS_ONLY (ConfigEntry.data (entry w)) ∧
  calls (async_setup_entry w).2 =
    (calls w ++
     [{| call := async_update_entry (ConfigEntry.entry_id (entry w))
                   (delete CONF_STATISTICS_ONLY (ConfigEntry.data (entry w)));
         hass_data_then := hass_data w |}])%list.
Proof.
  intros Hreq Hkey Hstat.
  rewrite (async_setup_entry_no_api_key w Hreq Hkey). cbn [fst snd].
  split; [done |]. split; [apply cleaned_data |].
  unfold cleaned. by rewrite bool_decide_true by (by rewrite Hstat).
Qed.

(** A first fetch that fails ends the setup with what the host makes of
    the error, after the client and coordinator were created and stored:
    the entry's mapping stays under [hass.data], and nothing is forwarded
    to the platforms. The fetch is made by a client built from the
    entry's host, location, TLS flag and API key, on the session the host
    hands out for the verify flag. *)
Theorem async_setup_entry_first_fetch_fails
    w name host ssl verify location key e :
  ConfigEntry.data (entry w) !! CONF_NAME = Some name →
  ConfigEntry.data (entry w) !! CONF_HOST = Some host →
  ConfigEntry.data (entry w) !! CONF_SSL = Some ssl →
  ConfigEntry.data (entry w) !! CONF_VERIFY_SSL = Some verify →
  ConfigEntry.data (entry w) !! CONF_LOCATION = Some location →
  ConfigEntry.data (entry w) !! CONF_API_KEY = Some key →
  CONF_API_KEY ≠ CONF_STATISTICS_ONLY →
  (async_update_data
     (Hole_init host (async_get_clientsession (client_sessions w) verify).1
                location ssl key)).1
    = Raises e →
  let w' := (async_setup_entry w).2 in
  (async_setup_entry w).1 = Raises (first_refresh_error e) ∧
  (hass_data w' !! DOMAIN ≫= (.!! ConfigEntry.entry_id (entry w))) =
    Some (stored_objects w) ∧
  length (holes w') = S (length (holes w)) ∧
  length (coordinators w') = S (length (coordinators w)) ∧
  forwarded_setups (calls w') = forwarded_setups (calls w).
Proof.
  intros Hn Hh Hs Hv Hl Hk Hne Hfetch w'. subst w'.
  assert (has_required_keys (ConfigEntry.data (entry w))) as Hreq.
  { unfold has_required_keys. rewrite Hn, Hh, Hs, Hv, Hl. by repeat split. }
  assert (is_Some (ConfigEntry.data (entry (cleaned w)) !! CONF_API_KEY))
    as Hkept.
  { rewrite cleaned_data. exists key. by rewrite lookup_delete_ne. }
  assert (built_client w =
          Hole_init host (async_get_clientsession (client_sessions w) verify).1
                    location ssl key)
    as Hclient.
  { unfold built_client. by rewrite Hh, Hs, Hv, Hl, Hk. }
  rewrite (async_setup_entry_past_guards w Hreq Hkept), Hclient.
  destruct (async_update_data
              (Hole_init host
                 (async_get_clientsession (client_sessions w) verify).1
                 location ssl key))
    as [r client].
  simpl in Hfetch. subst r.
  cbn [fst snd refreshed with_calls with_holes installed hass_data holes
       coordinators calls].
  split; [done |].
  split; [by rewrite lookup_insert_eq; cbn; rewrite lookup_insert_eq |].
  rewrite !length_app. cbn [length].
  split; [lia |]. split; [lia |].
  unfold forwarded_setups. rewrite omap_app. cbn.
  fold (forwarded_setups (calls (cleaned w))).
  by rewrite cleaned_forwarded_setups, app_nil_r.
Qed.

(** When the host fails to set up the platforms, the setup raises the
    host's exception; the first refresh has been made and the entry's
    mapping stays under [hass.data]. *)
Theorem async_setup_entry_forward_fails w client e :
  has_required_keys (ConfigEntry.data (entry w)) →
  is_Some (ConfigEntry.data (entry w) !! CONF_API_KEY) →
  CONF_API_KEY ≠ CONF_STATISTICS_ONLY →
  async_update_data (built_client w) = (Returns tt, client) →
  forward_entry_setups_outcome (forwarded w client) PLATFORMS = Some e →
  let w' := (async_setup_entry w).2 in
  (async_setup_entry w).1 = Raises e ∧
  (hass_data w' !! DOMAIN ≫= (.!! ConfigEntry.entry_id (entry w))) =
    Some (stored_objects w) ∧
  holes w' = (holes w ++ [client])%list ∧
  first_refreshes (calls w') =
    (first_refreshes (calls w) ++ [(length (coordinators w), hass_data w')])%list.
Proof.
  intros Hreq [key Hk] Hne Hfetch Hforward w'. subst w'.
  assert (is_Some (ConfigEntry.data (entry (cleaned w)) !! CONF_API_KEY))
    as Hkept.
  { rewrite cleaned_data. exists key. by rewrite lookup_delete_ne. }
  rewrite (async_setup_entry_past_guards w Hreq Hkept), Hfetch, Hforward.
  cbn [fst snd forwarded refreshed with_calls with_holes installed hass_data
       holes coordinators calls].
  split; [done |].
  split; [by rewrite lookup_insert_eq; cbn; rewrite lookup_insert_eq |].
  split; [done |].
  unfold first_refreshes. rewrite !omap_app. cbn.
  fold (first_refreshes (calls (cleaned w))).
  by rewrite cleaned_first_refreshes, app_nil_r.
Qed.

(** A setup that returns leaves, at the address it stored under
    [DATA_KEY_API], a client whose [data] is a dict: the platforms never
    see the result of a fetch that was not authenticated. *)
Theorem async_setup_entry_returns_with_dict_data w :
  (async_setup_entry w).1 = Returns true →
  ∃ client,
    holes (async_setup_entry w).2 = (holes w ++ [client])%list ∧
    holes (async_setup_entry w).2 !! length (holes w) = Some client ∧
    isinstance_dict (Hole.data client) = true.
Proof.
  intros Hret.
  destruct (async_setup_entry_returns_client w true Hret)
    as (client & Hfetch & Hrun).
  pose proof (async_update_data_returned_dict _ _ Hfetch) as Hdict.
  exists client. rewrite Hrun.
  cbn [snd forwarded refreshed with_calls with_holes holes].
  split; [done |]. split; [by apply list_lookup_middle | done].
Qed.

(** The host calls of a setup that returns, in order: the update of the
    entry if it had the obsolete key, then the first refresh, then the
    forwarding to the platforms; the last two see the entry's mapping
    stored. *)
Theorem async_setup_entry_call_order w :
  (async_setup_entry w).1 = Returns true →
  let d := ConfigEntry.data (entry w) in
  let id := ConfigEntry.entry_id (entry w) in
  let w' := (async_setup_entry w).2 in
  calls w' =
    (calls w ++
     (if bool_decide (is_Some (d !! CONF_STATISTICS_ONLY))
      then [{| call := async_update_entry id (delete CONF_STATISTICS_ONLY d);
               hass_data_then := hass_data w |}]
      else []) ++
     [{| call := async_config_entry_first_refresh (length (coordinators w));
         hass_data_then := hass_data w' |};
      {| call := async_forward_entry_setups id PLATFORMS;
         hass_data_then := hass_data w' |}])%list.
Proof.
  intros Hret d id w'. subst w'.
  destruct (async_setup_entry_returns_client w true Hret)
    as (client & _ & Hrun).
  rewrite Hrun.
  cbn [snd forwarded refreshed with_calls with_holes installed calls hass_data].
  unfold cleaned. fold d id.
  case_bool_decide; cbn [with_entry with_calls calls];
    by rewrite <- ?app_assoc.
Qed.


(** In every run, a setup leaves the clients and coordinators that exist
    where and as they are, and creates at most one of each, together. *)
Theorem async_setup_entry_keeps_heap w :
  let w' := (async_setup_entry w).2 in
  ∃ new_holes new_coordinators,
    holes w' = (holes w ++ new_holes)%list ∧
    coordinators w' = (coordinators w ++ new_coordinators)%list ∧
    length new_holes = length new_coordinators ∧
    (length new_holes ≤ 1)%nat.
Proof.
  intros w'. subst w'.
  destruct (async_setup_entry_ends w)
    as [-> | [-> | (client & _ & [-> | ->])]].
  - exists [], []. rewrite !app_nil_r. repeat split. cbn. lia.
  - exists [], [].
    rewrite cleaned_holes, cleaned_coordinators, !app_nil_r.
    repeat split. cbn. lia.
  - exists [client], [built_coordinator w]. repeat split. cbn. lia.
  - exists [client], [built_coordinator w]. repeat split. cbn. lia.
Qed.

(** The obsolete key is dropped once: a setup run again on the world a
    setup left makes no further update of the entry. *)
Theorem async_setup_entry_migrates_once w :
  has_required_keys (ConfigEntry.data (entry w)) →
  let w' := (async_setup_entry w).2 in
  ConfigEntry.data (entry w') !! CONF_STATISTICS_ONLY = None ∧
  entry_updates (calls (async_setup_entry w').2) = entry_updates (calls w') ∧
  entry (async_setup_entry w').2 = entry w'.
Proof.
  intros Hreq w'.
  destruct (async_setup_entry_keeps_cleaned_entry w Hreq) as [Hentry _].
  fold w' in Hentry.
  assert (ConfigEntry.data (entry w') !! CONF_STATISTICS_ONLY = None) as Hgone.
  { rewrite Hentry, cleaned_data. apply lookup_delete_eq. }
  assert (cleaned w' = w') as Hclean.
  { unfold cleaned.
    by rewrite bool_decide_false by (rewrite Hgone; by intros [? ?]). }
  split; [done |].
  destruct (decide (has_required_keys (ConfigEntry.data (entry w'))))
    as [Hreq' | Hmiss].
  - destruct (async_setup_entry_keeps_cleaned_entry w' Hreq') as [-> ->].
    by rewrite Hclean.
  - destruct (async_setup_entry_missing_key w' Hmiss) as [key ->]. done.
Qed.




(** The device page of an entity made for the client a setup stored. With
    a library that keeps the address, the URL is built from the entry's
    TLS flag, host and location. *)
Theorem device_info_after_setup w name server_unique_id host ssl location :
  keeps_address →
  (async_setup_entry w).1 = Returns true →
  ConfigEntry.data (entry w) !! CONF_HOST = Some host →
  ConfigEntry.data (entry w) !! CONF_SSL = Some ssl →
  ConfigEntry.data (entry w) !! CONF_LOCATION = Some location →
  let w' := (async_setup_entry w).2 in
  let self :=
    PiHoleEntity_init (length (holes w)) (length (coordinators w))
                      name server_unique_id in
  device_info self w' =
    (Returns
       (DeviceInfo.mk
          {[ (DOMAIN, server_unique_id) ]} name "Pi-hole"
          ((if truthy ssl then "https://" else "http://")
           +:+ py_str host +:+ "/" +:+ py_str location)),
     w').
Proof.
  intros Hkeep Hret Hh Hs Hl w' self.
  destruct (async_setup_entry_returns_client w true Hret)
    as (client & Hfetch & Hrun).
  destruct (async_update_data_keeps_address (built_client w) Hkeep)
    as (Hhost & Hlocation & Htls).
  rewrite Hfetch in Hhost, Hlocation, Htls. cbn [snd] in Hhost, Hlocation, Htls.
  unfold built_client in Hhost, Hlocation, Htls.
  rewrite Hh, Hs, Hl in *. cbn [default Hole_init Hole.host Hole.location Hole.tls]
    in Hhost, Hlocation, Htls.
  assert (holes w' !! length (holes w) = Some client) as Hclient.
  { subst w'. rewrite Hrun.
    cbn [snd forwarded refreshed with_calls with_holes holes].
    by apply list_lookup_middle. }
  unfold device_info, on_hole, self. cbn [PiHoleEntity_init api _name
    _server_unique_id]. rewrite Hclient.
  unfold_py. rewrite Hhost, Hlocation, Htls.
  rewrite list_insert_id by done. rewrite with_holes_same.
  unfold id. by destruct (truthy ssl).
Qed.
End FurtherSetupProperties.

(** ** The further properties on concrete installations *)

Lemma async_update_data_other_error_propagates_witness :
  @async_update_data cancelled_library (sample_api (VStr "secret")) =
    (Raises (Lib (OtherLibraryError "CancelledError")),
     count_request (sample_api (VStr "secret"))).
Proof.
  destruct (@async_update_data_other_error_propagates cancelled_library
              (sample_api (VStr "secret")) "CancelledError") as [Hfirst _].
  apply Hfirst. reflexivity.
Defined.

Lemma async_update_data_returns_only_with_dict_witness :
  ∃ api1,
    @get_data answering_library (sample_api (VStr "secret")) = (None, api1) ∧
    @get_versions answering_library api1 =
      (None, (@async_update_data answering_library
                (sample_api (VStr "secret"))).2) ∧
    isinstance_dict
      (Hole.data (@async_update_data answering_library
                    (sample_api (VStr "secret"))).2) = true.
Proof.
  apply (@async_update_data_returns_only_with_dict answering_library
           (sample_api (VStr "secret"))).
  vm_compute. reflexivity.
Defined.

Lemma async_setup_entry_first_missing_key_witness :
  @async_setup_entry ha_constants answering_library (obliging_host true)
    (fresh_world entry_missing_keys) =
    (Raises (KeyError "ssl"), fresh_world entry_missing_keys).
Proof.
  apply (@async_setup_entry_first_missing_key ha_constants answering_library
           (obliging_host true) (fresh_world entry_missing_keys) "ssl").
  vm_compute. reflexivity.
Defined.

Lemma async_setup_entry_cleans_before_api_key_guard_witness :
  let run := @async_setup_entry ha_constants answering_library
               (obliging_host true) (fresh_world entry_obsolete_without_key) in
  run.1 = Raises ConfigEntryAuthFailed ∧
  ConfigEntry.data (entry run.2) =
    delete "statistics_only" (ConfigEntry.data entry_obsolete_without_key) ∧
  calls run.2 =
    [{| call := async_update_entry "entry-4"
                  (delete "statistics_only"
                     (ConfigEntry.data entry_obsolete_without_key));
        hass_data_then := ∅ |}].
Proof.
  apply (@async_setup_entry_cleans_before_api_key_guard ha_constants
           answering_library (obliging_host true)
           (fresh_world entry_obsolete_without_key) (VBool false)).
  - evaluate.
  - vm_compute. reflexivity.
  - vm_compute. reflexivity.
Defined.

Lemma async_setup_entry_first_fetch_fails_witness :
  let w := fresh_world entry_with_key in
  let run := @async_setup_entry ha_constants unreachable_library
               (obliging_host true) w in
  run.1 = Raises (HostError "ConfigEntryNotReady") ∧
  (hass_data run.2 !! "pi_hole" ≫= (.!! "entry-1")) =
    Some {["api" := HoleAt 0; "coordinator" := CoordinatorAt 0]} ∧
  length (holes run.2) = 1 ∧
  length (coordinators run.2) = 1 ∧
  forwarded_setups (calls run.2) = [].
Proof.
  pose proof (@async_setup_entry_first_fetch_fails ha_constants
                unreachable_library (obliging_host true)
                (fresh_world entry_with_key)
                (VStr "Pi-Hole") (VStr "192.168.1.2") (VBool false)
                (VBool true) (VStr "admin") (VStr "secret")
                (UpdateFailed "Failed to communicate with API: Cannot connect"
                              (HoleError "Cannot connect"))
                eq_refl eq_refl eq_refl eq_refl eq_refl eq_refl)
    as Hfails.
  destruct Hfails as (Hout & Hstored & Hholes & Hcoordinators & Hforwarded).
  - discriminate.
  - vm_compute. reflexivity.
  - split; [exact Hout |].
    split; [etrans; [exact Hstored | vm_compute; reflexivity] |].
    split; [exact Hholes |]. split; [exact Hcoordinators | exact Hforwarded].
Defined.

Lemma async_setup_entry_forward_fails_witness :
  let w := fresh_world entry_with_key in
  let run := @async_setup_entry ha_constants answering_library
               refusing_host w in
  run.1 = Raises (HostError "PlatformNotReady") ∧
  (hass_data run.2 !! "pi_hole" ≫= (.!! "entry-1")) =
    Some {["api" := HoleAt 0; "coordinator" := CoordinatorAt 0]} ∧
  first_refreshes (calls run.2) = [(0, hass_data run.2)].
Proof.
  destruct (@async_setup_entry_forward_fails ha_constants answering_library
              refusing_host (fresh_world entry_with_key)
              (@async_update_data answering_library
                 (@built_client ha_constants answering_library refusing_host
                    (fresh_world entry_with_key))).2
              (HostError "PlatformNotReady"))
    as (Hout & Hstored & _ & Hrefresh).
  - evaluate.
  - eexists. vm_compute. reflexivity.
  - discriminate.
  - vm_compute. reflexivity.
  - reflexivity.
  - split; [exact Hout |]. split; [| exact Hrefresh].
    etrans; [exact Hstored | vm_compute; reflexivity].
Defined.

Lemma async_setup_entry_returns_with_dict_data_witness :
  ∃ client,
    holes (set_up_world true) = [client] ∧
    holes (set_up_world true) !! 0 = Some client ∧
    isinstance_dict (Hole.data client) = true.
Proof.
  apply (@async_setup_entry_returns_with_dict_data ha_constants
           answering_library (obliging_host true) (fresh_world entry_with_key)).
  vm_compute. reflexivity.
Defined.

Lemma async_setup_entry_call_order_witness :
  calls (set_up_world true) =
    [{| call := async_update_entry "entry-1"
                  (delete "statistics_only" (ConfigEntry.data entry_with_key));
        hass_data_then := ∅ |};
     {| call := async_config_entry_first_refresh 0;
        hass_data_then := hass_data (set_up_world true) |};
     {| call := async_forward_entry_setups "entry-1"
                  [BINARY_SENSOR; SENSOR; SWITCH; UPDATE];
        hass_data_then := hass_data (set_up_world true) |}].
Proof.
  apply (@async_setup_entry_call_order ha_constants answering_library
           (obliging_host true) (fresh_world entry_with_key)).
  vm_compute. reflexivity.
Defined.


Lemma async_setup_entry_migrates_once_witness :
  ConfigEntry.data (entry (set_up_world true)) !! "statistics_only" = None ∧
  entry_updates
    (calls (@async_setup_entry ha_constants answering_library
              (obliging_host true) (set_up_world true)).2) =
    entry_updates (calls (set_up_world true)) ∧
  entry (@async_setup_entry ha_constants answering_library
           (obliging_host true) (set_up_world true)).2 =
    entry (set_up_world true).
Proof.
  apply (@async_setup_entry_migrates_once ha_constants answering_library
           (obliging_host true) (fresh_world entry_with_key)).
  evaluate.
Defined.




Lemma device_info_after_setup_witness :
  @device_info ha_constants
    (PiHoleEntity_init 0 0 "Pi-Hole" "entry-1") (set_up_world true) =
    (Returns
       (DeviceInfo.mk {[ ("pi_hole", "entry-1") ]} "Pi-Hole" "Pi-hole"
                      "http://192.168.1.2/admin"),
     set_up_world true).
Proof.
  apply (@device_info_after_setup ha_constants answering_library
           (obliging_host true) (fresh_world entry_with_key)
           "Pi-Hole" "entry-1"
           (VStr "192.168.1.2") (VBool false) (VStr "admin")).
  - intros a. repeat split.
  - vm_compute. reflexivity.
  - vm_compute. reflexivity.
  - vm_compute. reflexivity.
  - vm_compute. reflexivity.
Defined.
